(** * Medium scraper MCP server: the scraping, conversion and dispatch logic

    A shallow embedding of [medium_scraper_mcp/server.py] and
    [medium_scraper_mcp/cli.py].

    Conventions of the embedding.
    - A Python [str] is a [string]; each character stands for one code
      point (the code points below 256).  [len], slicing, [strip], [split]
      and [startswith] are the Python operations on code points.
    - A parsed document is a [PageElement] tree, as BeautifulSoup builds it.
      The tree queries the program uses ([find], [find_all], [get_text],
      [get]) are defined on that tree.
    - The collaborators the program only calls (the two HTTP clients, the
      HTML parser, the serialiser of a tag, the markdown converter) are the
      fields of an environment record [Env].
    - A handler is a computation in the monad [M]: it reads and updates the
      server state (the lazily created session, the log) and either returns
      a value or raises a Python exception. *)

From Stdlib Require Import String Ascii List ZArith Lia Bool Arith.
From Stdlib Require Import DecimalString.
Import ListNotations.

Open Scope list_scope.
Open Scope string_scope.

(** ** Python strings *)

Module PyStr.

(** [str.isspace] on one code point below 256: tab, LF, VT, FF, CR, the
    four separators 0x1c-0x1f, space, NEL (0x85) and NBSP (0xa0). *)
Definition isspace (c : ascii) : bool :=
  let n := nat_of_ascii c in
  (((9 <=? n) && (n <=? 13)) || ((28 <=? n) && (n <=? 32))
   || (n =? 133) || (n =? 160))%nat.

Definition is_empty (s : string) : bool :=
  match s with EmptyString => true | String _ _ => false end.

Fixpoint lstrip (s : string) : string :=
  match s with
  | EmptyString => EmptyString
  | String c r => if isspace c then lstrip r else s
  end.

Fixpoint rstrip (s : string) : string :=
  match s with
  | EmptyString => EmptyString
  | String c r =>
      let r' := rstrip r in
      if isspace c && is_empty r' then EmptyString else String c r'
  end.

(** [s.strip()] *)
Definition strip (s : string) : string := rstrip (lstrip s).

(** [s.split()]: the scanning loop of the whitespace split.  [cur] is the
    token being collected; a whitespace character closes it. *)
Fixpoint split_from (cur : string) (s : string) : list string :=
  match s with
  | EmptyString => if is_empty cur then [] else [cur]
  | String c r =>
      if isspace c
      then (if is_empty cur then split_from EmptyString r
            else cur :: split_from EmptyString r)
      else split_from (cur ++ String c EmptyString) r
  end.

Definition split (s : string) : list string := split_from EmptyString s.

(** [s[:n]] for [n >= 0] *)
Fixpoint slice_to (n : nat) (s : string) : string :=
  match n, s with
  | O, _ => EmptyString
  | S _, EmptyString => EmptyString
  | S n', String c r => String c (slice_to n' r)
  end.

(** [s.startswith(p)] *)
Definition startswith (s p : string) : bool := String.prefix p s.

(** [sub in s] *)
Fixpoint contains (s sub : string) : bool :=
  String.prefix sub s
  || match s with
     | EmptyString => false
     | String _ r => contains r sub
     end.

(** [str(n)] for an [int] *)
Definition str_int (z : Z) : string := NilZero.string_of_int (Z.to_int z).

(** [''.join(l)] *)
Definition join_empty (l : list string) : string :=
  fold_right String.append EmptyString l.

(** [sep.join(l)] *)
Fixpoint join (sep : string) (l : list string) : string :=
  match l with
  | [] => EmptyString
  | [x] => x
  | x :: r => x ++ sep ++ join sep r
  end.

Definition nl : string := String (ascii_of_nat 10) EmptyString.
Definition dq : string := String (ascii_of_nat 34) EmptyString.

(** The first line of a text: everything before the first line feed. *)
Fixpoint first_line (s : string) : string :=
  match s with
  | EmptyString => EmptyString
  | String c r =>
      if (nat_of_ascii c =? 10)%nat then EmptyString
      else String c (first_line r)
  end.

End PyStr.

(** ** The document tree (BeautifulSoup) *)

Module Soup.

(** The class of a string node.  The HTML tree builder gives the strings
    inside [script], [style] and [template] their own classes; comments
    and the doctype have theirs. *)
Inductive StringKind :=
| NavigableString | CData | Comment | Doctype
| Script | Stylesheet | TemplateString.

(** A node: a string, or a tag with its attribute dictionary and its
    contents.  The root of a parsed document is a tag named
    [[document]].  The attributes the program reads ([href], [datetime],
    [data-testid], [data-test-id]) are single-valued, so a value is a
    string. *)
#[warnings="-register-all"]
Inductive PageElement :=
| Str (kind : StringKind) (s : string)
| Tag (name : string) (attrs : list (string * string))
      (contents : list PageElement).

(** [tag.get(key)] *)
Fixpoint attr_get (attrs : list (string * string)) (key : string)
  : option string :=
  match attrs with
  | [] => None
  | (k, v) :: r => if String.eqb k key then Some v else attr_get r key
  end.

(** [tag.get(key, default)] *)
Definition get (e : PageElement) (key default : string) : string :=
  match e with
  | Tag _ attrs _ =>
      match attr_get attrs key with Some v => v | None => default end
  | Str _ _ => default
  end.

(** [tag.get(key)], [None] when the attribute is absent *)
Definition get_opt (e : PageElement) (key : string) : option string :=
  match e with
  | Tag _ attrs _ => attr_get attrs key
  | Str _ _ => None
  end.

(** [tag.descendants]: every node below the tag, in document order. *)
Fixpoint descendants (e : PageElement) : list PageElement :=
  match e with
  | Str _ _ => []
  | Tag _ _ cs => flat_map (fun c => c :: descendants c) cs
  end.

(** A tag matches a [find] query when its name is the one asked for and
    each attribute of the query has the asked value. *)
Definition matches (name : string) (query : list (string * string))
           (e : PageElement) : bool :=
  match e with
  | Str _ _ => false
  | Tag n attrs _ =>
      String.eqb n name
      && forallb (fun kv =>
                    match attr_get attrs (fst kv) with
                    | Some v => String.eqb v (snd kv)
                    | None => false
                    end) query
  end.

(** [tag.find_all(name, query)] *)
Definition find_all (name : string) (query : list (string * string))
           (e : PageElement) : list PageElement :=
  filter (matches name query) (descendants e).

(** [tag.find(name, query)]: the first result of [find_all], or [None]. *)
Definition find (name : string) (query : list (string * string))
           (e : PageElement) : option PageElement :=
  match find_all name query e with
  | [] => None
  | x :: _ => Some x
  end.

(** The strings [get_text] keeps: plain strings and CDATA sections. *)
Definition interesting (k : StringKind) : bool :=
  match k with
  | NavigableString | CData => true
  | _ => false
  end.

Definition own_text (e : PageElement) : string :=
  match e with
  | Str k s => if interesting k then s else EmptyString
  | Tag _ _ _ => EmptyString
  end.

(** [tag.get_text()]: the kept strings below the tag, joined with the
    empty separator. *)
Definition get_text (e : PageElement) : string :=
  PyStr.join_empty (map own_text (descendants e)).

End Soup.

(** ** JSON values and [json.dumps(obj, indent=2)] *)

Module Json.

#[warnings="-register-all"]
Inductive value :=
| JNull
| JBool (b : bool)
| JInt (z : Z)
| JStr (s : string)
| JList (items : list value)
| JDict (items : list (string * value)).

Definition hex_digit (n : nat) : ascii :=
  ascii_of_nat (if (n <? 10)%nat then 48 + n else 87 + n).

(** One character of a string literal with [ensure_ascii]: the quote, the
    backslash and the five short escapes; every other character outside
    space..~ as [\u00xx]. *)
Definition escape_char (c : ascii) : string :=
  let n := nat_of_ascii c in
  if (n =? 34)%nat then "\" ++ PyStr.dq
  else if (n =? 92)%nat then "\\"
  else if (n =? 10)%nat then "\n"
  else if (n =? 13)%nat then "\r"
  else if (n =? 9)%nat then "\t"
  else if (n =? 8)%nat then "\b"
  else if (n =? 12)%nat then "\f"
  else if ((n <? 32) || (126 <? n))%nat
       then "\u00" ++ String (hex_digit (n / 16))
                        (String (hex_digit (n mod 16)) EmptyString)
  else String c EmptyString.

Fixpoint escape (s : string) : string :=
  match s with
  | EmptyString => EmptyString
  | String c r => escape_char c ++ escape r
  end.

Definition quote (s : string) : string :=
  PyStr.dq ++ escape s ++ PyStr.dq.

Fixpoint spaces (n : nat) : string :=
  match n with
  | O => EmptyString
  | S k => String " "%char (spaces k)
  end.

(** The encoder at nesting depth [level], with an indent of two spaces,
    the item separator [,] and the key separator [: ]. *)
Fixpoint dumps_at (level : nat) (v : value) : string :=
  let newline_indent := PyStr.nl ++ spaces (2 * S level) in
  let closing := PyStr.nl ++ spaces (2 * level) in
  match v with
  | JNull => "null"
  | JBool true => "true"
  | JBool false => "false"
  | JInt z => PyStr.str_int z
  | JStr s => quote s
  | JList [] => "[]"
  | JList items =>
      "[" ++ newline_indent
          ++ PyStr.join ("," ++ newline_indent)
                        (map (dumps_at (S level)) items)
          ++ closing ++ "]"
  | JDict [] => "{}"
  | JDict items =>
      "{" ++ newline_indent
          ++ PyStr.join ("," ++ newline_indent)
               (map (fun kv => quote (fst kv) ++ ": "
                                 ++ dumps_at (S level) (snd kv)) items)
          ++ closing ++ "}"
  end.

(** [json.dumps(v, indent=2)] *)
Definition dumps (v : value) : string := dumps_at 0 v.

(** [d[key]] on a JSON object *)
Fixpoint field (items : list (string * value)) (key : string)
  : option value :=
  match items with
  | [] => None
  | (k, v) :: r => if String.eqb k key then Some v else field r key
  end.

End Json.

(** ** Python values, exceptions and the handler monad *)

(** The argument values a tool call carries: JSON scalars. *)
Inductive pyval :=
| PNone
| PBool (b : bool)
| PInt (z : Z)
| PStr (s : string).

(** Truth value of [if v:] *)
Definition truthy (v : pyval) : bool :=
  match v with
  | PNone => false
  | PBool b => b
  | PInt z => negb (z =? 0)%Z
  | PStr s => negb (PyStr.is_empty s)
  end.

(** [str(v)], what an f-string inserts *)
Definition py_str (v : pyval) : string :=
  match v with
  | PNone => "None"
  | PBool true => "True"
  | PBool false => "False"
  | PInt z => PyStr.str_int z
  | PStr s => s
  end.

Definition to_json (v : pyval) : Json.value :=
  match v with
  | PNone => Json.JNull
  | PBool b => Json.JBool b
  | PInt z => Json.JInt z
  | PStr s => Json.JStr s
  end.

(** An exception: its class, [str(e)], and whether the class derives from
    [Exception].  [asyncio.CancelledError], [KeyboardInterrupt] and
    [SystemExit] derive from [BaseException] only. *)
Record exn := mk_exn {
  exn_class : string;
  exn_msg : string;
  is_Exception : bool
}.

Definition Exception (msg : string) : exn := mk_exn "Exception" msg true.
Definition ValueError (msg : string) : exn := mk_exn "ValueError" msg true.
Definition TypeError (msg : string) : exn := mk_exn "TypeError" msg true.

Inductive outcome (A : Type) :=
| Return (a : A)
| Raise (e : exn).
Arguments Return {A} a.
Arguments Raise {A} e.

Record ClientSession := mk_session { timeout_total : Z }.

Inductive log_level := WARNING | ERROR.

(** What a handler can change: the server's lazily created session and the
    records the module logger has emitted, oldest first. *)
Record state := mk_state {
  session : option ClientSession;
  log : list (log_level * string)
}.

Definition M (A : Type) : Type := state -> outcome A * state.

Definition ret {A} (a : A) : M A := fun st => (Return a, st).

Definition raise {A} (e : exn) : M A := fun st => (Raise e, st).

Definition bind {A B} (m : M A) (k : A -> M B) : M B :=
  fun st =>
    match m st with
    | (Return a, st') => k a st'
    | (Raise e, st') => (Raise e, st')
    end.

Definition lift {A} (o : outcome A) : M A := fun st => (o, st).

(** [try: body except Exception as e: handler(e)]: an exception whose
    class does not derive from [Exception] is not caught. *)
Definition try_except {A} (body : M A) (handler : exn -> M A) : M A :=
  fun st =>
    match body st with
    | (Return a, st') => (Return a, st')
    | (Raise e, st') =>
        if is_Exception e then handler e st' else (Raise e, st')
    end.

Definition emit (lvl : log_level) (msg : string) : M unit :=
  fun st => (Return tt, mk_state (session st) (log st ++ [(lvl, msg)])%list).

Notation "x <- c ;; k" := (bind c (fun x => k))
  (at level 61, c at next level, right associativity).
Notation "c ;;; k" := (bind c (fun _ => k))
  (at level 61, right associativity).

(** ** The collaborators *)

Record aio_response := mk_aio { status : Z; aio_text : string }.

Record httpx_response := mk_httpx { status_code : Z; text : string }.

Inductive HeadingStyle := ATX | ATX_CLOSED | UNDERLINED.

(** The keyword arguments given to [MarkdownConverter]. *)
Record MarkdownOptions := mk_options {
  heading_style : HeadingStyle;
  bullets : string;
  strip : list string;
  escape_asterisks : bool;
  escape_underscores : bool
}.

(** What the program calls and does not define.
    - [aiohttp_get session url params]: [session.get(url, params=params)]
      and [response.text()];
    - [httpx_get timeout url]: [httpx.AsyncClient(timeout).get(url)];
    - [raise_for_status r]: the exception [r.raise_for_status()] raises, if
      any;
    - [BeautifulSoup html]: [BeautifulSoup(html, 'html.parser')], the tree
      of markup the parser accepts (markup the parser rejects with an
      exception is outside the model);
    - [tag_str t]: [str(t)], the markup of a tag;
    - [md_convert options html]: [convert(html)] of the [MarkdownConverter]
      built with [options]. *)
Record Env := mk_env {
  aiohttp_get : ClientSession -> string -> list (string * pyval)
                -> outcome aio_response;
  httpx_get : Z -> pyval -> outcome httpx_response;
  raise_for_status : httpx_response -> option exn;
  BeautifulSoup : string -> Soup.PageElement;
  tag_str : Soup.PageElement -> string;
  md_convert : MarkdownOptions -> string -> string
}.

Record TextContent := mk_text { type : string; content_text : string }.

(** ** server.py *)

Module Server.
Section Handlers.

Variable env : Env.

(** [_get_session] *)
Definition _get_session : M ClientSession :=
  fun st =>
    match session st with
    | None =>
        let s := mk_session 30 in
        (Return s, mk_state (Some s) (log st))
    | Some s => (Return s, st)
    end.

(** [l[:stop]] *)
Definition slice_stop {A} (l : list A) (stop : pyval) : outcome (list A) :=
  match stop with
  | PNone => Return l
  | PBool b => Return (firstn (if b then 1 else 0) l)
  | PInt z =>
      Return (if (z <? 0)%Z
              then firstn (length l - Z.to_nat (- z)) l
              else firstn (Z.to_nat z) l)
  | PStr _ =>
      Raise (TypeError
        "slice indices must be integers or None or have an __index__ method")
  end.

Definition origin : string := "https://medium.com".

(** [url] after the rewrite of a leading [/] *)
Definition resolve_url (url : string) : string :=
  if PyStr.startswith url "/" then origin ++ url else url.

(** [title[:100] + "..." if len(title) > 100 else title] *)
Definition snippet_of (title : string) : string :=
  if (100 <? String.length title)%nat
  then PyStr.slice_to 100 title ++ "..."
  else title.

(** The body of the loop over the result elements: the dictionary it
    appends, if it appends one. *)
Definition summary_of (element : Soup.PageElement) : option Json.value :=
  let title_elem :=
    match Soup.find "h3" [] element with
    | Some t => Some t
    | None => Soup.find "h2" [] element
    end in
  let author_elem := Soup.find "a" [("data-testid", "authorName")] element in
  let url_elem := Soup.find "a" [] element in
  match title_elem, url_elem with
  | Some t, Some u =>
      let title := PyStr.strip (Soup.get_text t) in
      let url := resolve_url (Soup.get u "href" "") in
      let author :=
        match author_elem with
        | Some a => PyStr.strip (Soup.get_text a)
        | None => "Unknown"
        end in
      Some (Json.JDict [("title", Json.JStr title);
                        ("url", Json.JStr url);
                        ("author", Json.JStr author);
                        ("snippet", Json.JStr (snippet_of title))])
  | _, _ => None
  end.

(** The [for] loop: each element is handled inside its own [try]; a
    failure is logged and the element skipped. *)
Fixpoint collect (elements : list Soup.PageElement)
         (articles : list Json.value) : M (list Json.value) :=
  match elements with
  | [] => ret articles
  | element :: rest =>
      articles' <-
        try_except
          (ret (match summary_of element with
                | Some d => (articles ++ [d])%list
                | None => articles
                end))
          (fun e =>
             emit WARNING ("Error parsing search result: " ++ exn_msg e) ;;;
             ret articles) ;;
      collect rest articles'
  end.

Definition search_url : string := "https://medium.com/search/posts".

(** [params]: the query, and the tag when it is truthy *)
Definition search_params (query tag : pyval) : list (string * pyval) :=
  (("q", query) :: (if truthy tag then [("tag", tag)] else []))%list.

(** [_search_medium_articles] *)
Definition _search_medium_articles (query tag limit : pyval)
  : M (list TextContent) :=
  try_except
    (let params := search_params query tag in
     session <- _get_session ;;
     response <- lift (aiohttp_get env session search_url params) ;;
     if negb (status response =? 200)%Z
     then raise (Exception ("Search failed: "
                              ++ PyStr.str_int (status response)))
     else
       let html := aio_text response in
       let soup := BeautifulSoup env html in
       let article_elements :=
         Soup.find_all "div" [("data-test-id", "postPreview")] soup in
       elements <- lift (slice_stop article_elements limit) ;;
       articles <- collect elements [] ;;
       ret [mk_text "text" (Json.dumps (Json.JList articles))])
    (fun e =>
       emit ERROR ("Error searching Medium articles: " ++ exn_msg e) ;;;
       raise e).

(** The converter the conversion builds. *)
Definition md : MarkdownOptions :=
  mk_options ATX "-" ["script"; "style"] false false.

(** [_convert_medium_to_markdown] *)
Definition _convert_medium_to_markdown
           (url include_images include_code : pyval)
  : M (list TextContent) :=
  try_except
    (response <- lift (httpx_get env 30 url) ;;
     match raise_for_status env response with
     | Some e => raise e
     | None =>
         let html := text response in
         let soup := BeautifulSoup env html in
         match Soup.find "article" [] soup with
         | None => raise (Exception "Could not find article content")
         | Some article_content =>
             let title := Soup.find "h1" [] soup in
             let title_text :=
               match title with
               | Some t => PyStr.strip (Soup.get_text t)
               | None => "Untitled"
               end in
             let markdown_content :=
               md_convert env md (tag_str env article_content) in
             let result := "# " ++ title_text ++ PyStr.nl ++ PyStr.nl in
             let result :=
               result ++ "**Source:** " ++ py_str url
                      ++ PyStr.nl ++ PyStr.nl in
             let result := result ++ "---" ++ PyStr.nl ++ PyStr.nl in
             let result := result ++ markdown_content in
             ret [mk_text "text" result]
         end
     end)
    (fun e =>
       emit ERROR ("Error converting Medium article: " ++ exn_msg e) ;;;
       raise e).

(** [_estimate_word_count] *)
Definition _estimate_word_count (html : string) : Z :=
  let soup := BeautifulSoup env html in
  let text := Soup.get_text soup in
  let words := PyStr.split text in
  Z.of_nat (length words).

(** The dictionary [info] of [_get_medium_article_info]. *)
Definition article_info (url : pyval) (html : string)
  : list (string * Json.value) :=
  let soup := BeautifulSoup env html in
  let title := Soup.find "h1" [] soup in
  let author := Soup.find "a" [("data-testid", "authorName")] soup in
  let reading_time :=
    Soup.find "span" [("data-testid", "readingTime")] soup in
  let publish_date := Soup.find "time" [] soup in
  let text_or_unknown (node : option Soup.PageElement) :=
    match node with
    | Some t => Json.JStr (PyStr.strip (Soup.get_text t))
    | None => Json.JStr "Unknown"
    end in
  [("title", text_or_unknown title);
   ("author", text_or_unknown author);
   ("reading_time", text_or_unknown reading_time);
   ("publish_date",
     match publish_date with
     | Some t =>
         match Soup.get_opt t "datetime" with
         | Some d => Json.JStr d
         | None => Json.JNull
         end
     | None => Json.JNull
     end);
   ("url", to_json url);
   ("word_count", Json.JInt (_estimate_word_count html))].

(** [_get_medium_article_info] *)
Definition _get_medium_article_info (url : pyval) : M (list TextContent) :=
  try_except
    (response <- lift (httpx_get env 30 url) ;;
     match raise_for_status env response with
     | Some e => raise e
     | None =>
         let html := text response in
         let info := article_info url html in
         ret [mk_text "text" (Json.dumps (Json.JDict info))]
     end)
    (fun e =>
       emit ERROR ("Error getting article info: " ++ exn_msg e) ;;;
       raise e).

End Handlers.
End Server.

(** ** The dispatch boundary: [call_tool] *)

Module Dispatch.
Section CallTool.

Variable env : Env.

(** The [arguments] dictionary of a tool call. *)
Definition kwargs := list (string * pyval).

Fixpoint kw_get (args : kwargs) (key : string) : option pyval :=
  match args with
  | [] => None
  | (k, v) :: r => if String.eqb k key then Some v else kw_get r key
  end.

(** The first keyword of the call that is no parameter of the callee. *)
Fixpoint unexpected (params : list string) (args : kwargs)
  : option string :=
  match args with
  | [] => None
  | (k, _) :: r =>
      if existsb (String.eqb k) params then unexpected params r
      else Some k
  end.

(** Binding [**args] to the parameters of the bound method [qualname].
    The first keyword that cannot be bound is a [TypeError]: the keyword
    [self], because the method has bound [self] already; any other keyword
    that is no parameter, because it is unexpected (the messages are those
    of CPython 3.10 to 3.12). *)
Definition check_keywords (qualname : string) (params : list string)
           (args : kwargs) : outcome unit :=
  match unexpected params args with
  | Some k =>
      if String.eqb k "self"
      then Raise (TypeError (qualname
                               ++ "() got multiple values for argument 'self'"))
      else Raise (TypeError (qualname
                               ++ "() got an unexpected keyword argument '"
                               ++ k ++ "'"))
  | None => Return tt
  end.

(** A parameter without default: absent from the call, a [TypeError]. *)
Definition required (qualname : string) (args : kwargs) (name : string)
  : outcome pyval :=
  match kw_get args name with
  | Some v => Return v
  | None =>
      Raise (TypeError (qualname
                          ++ "() missing 1 required positional argument: '"
                          ++ name ++ "'"))
  end.

(** A parameter with a default. *)
Definition optional (args : kwargs) (name : string) (default : pyval)
  : pyval :=
  match kw_get args name with
  | Some v => v
  | None => default
  end.

(** [self._search_medium_articles] called with the dictionary as keywords *)
Definition call_search (args : kwargs) : M (list TextContent) :=
  let f := "MediumScraperMCPServer._search_medium_articles" in
  _ <- lift (check_keywords f ["query"; "tag"; "limit"] args) ;;
  query <- lift (required f args "query") ;;
  Server._search_medium_articles env query
    (optional args "tag" PNone) (optional args "limit" (PInt 10)).

(** [self._convert_medium_to_markdown] called with the dictionary as keywords *)
Definition call_convert (args : kwargs) : M (list TextContent) :=
  let f := "MediumScraperMCPServer._convert_medium_to_markdown" in
  _ <- lift (check_keywords f ["url"; "include_images"; "include_code"]
                            args) ;;
  url <- lift (required f args "url") ;;
  Server._convert_medium_to_markdown env url
    (optional args "include_images" (PBool true))
    (optional args "include_code" (PBool true)).

(** [self._get_medium_article_info] called with the dictionary as keywords *)
Definition call_info (args : kwargs) : M (list TextContent) :=
  let f := "MediumScraperMCPServer._get_medium_article_info" in
  _ <- lift (check_keywords f ["url"] args) ;;
  url <- lift (required f args "url") ;;
  Server._get_medium_article_info env url.

(** [arguments or {}] *)
Definition or_empty (arguments : option kwargs) : kwargs :=
  match arguments with
  | Some a => a
  | None => []
  end.

(** The body of the [try] of [call_tool]: the handler the name selects. *)
Definition dispatch (name : string) (args : kwargs)
  : M (list TextContent) :=
  if String.eqb name "search_medium_articles" then call_search args
  else if String.eqb name "convert_medium_to_markdown"
       then call_convert args
  else if String.eqb name "get_medium_article_info" then call_info args
  else raise (ValueError ("Unknown tool: " ++ name)).

(** [call_tool] *)
Definition call_tool (name : string) (arguments : option kwargs)
  : M (list TextContent) :=
  let args := or_empty arguments in
  try_except
    (dispatch name args)
    (fun e =>
       emit ERROR ("Error in tool call " ++ name ++ ": " ++ exn_msg e) ;;;
       ret [mk_text "text" ("Error: " ++ exn_msg e)]).

End CallTool.
End Dispatch.

(** ** cli.py *)

Module Cli.

(** The namespace [parse_args] returns: [--stdio], [--port] (an [int], or
    [None] when the option is not given) and [--verbose]. *)
Record Namespace := mk_args {
  stdio : bool;
  port : option Z;
  verbose : bool
}.

(** What [main] does, in order. *)
Inductive action :=
| LoggingDebug
| PrintStderr (msg : string)
| RunStdioServer.

(** How [main] ends: [sys.exit(code)], by returning, or with an exception
    that nothing catches. *)
Inductive ending :=
| SysExit (code : Z)
| Returned
| Uncaught (e : exn).

(** [if args.port:] *)
Definition port_truthy (p : option Z) : bool :=
  match p with
  | None => false
  | Some n => negb (n =? 0)%Z
  end.

(** [main], after [parse_args].  [server_run] is what building the server
    and [asyncio.run(server.run())] do in the stdio branch: they return, or
    raise an exception, which [main] does not catch. *)
Definition main (server_run : outcome unit) (args : Namespace)
  : list action * ending :=
  let logging := if verbose args then [LoggingDebug] else [] in
  if port_truthy (port args)
  then ((logging ++ [PrintStderr "HTTP mode not yet implemented"])%list,
        SysExit 1)
  else ((logging ++ [RunStdioServer])%list,
        match server_run with
        | Return _ => Returned
        | Raise e => Uncaught e
        end).

End Cli.

(** ** A concrete world

    A small site to run the handlers on: a handful of pages given as
    trees, their source text, and collaborators that serve and parse
    them. *)

Module Demo.
Import Soup.

Definition txt (s : string) : PageElement := Str NavigableString s.
Definition document (cs : list PageElement) : PageElement :=
  Tag "[document]" [] cs.

(** The source text of a tree (attribute values in single quotes). *)
Fixpoint markup (e : PageElement) : string :=
  match e with
  | Str Comment s => "<!--" ++ s ++ "-->"
  | Str _ s => s
  | Tag name attrs cs =>
      let inner := PyStr.join_empty (map markup cs) in
      if String.eqb name "[document]" then inner
      else "<" ++ name
               ++ PyStr.join_empty
                    (map (fun kv => " " ++ fst kv ++ "='" ++ snd kv ++ "'")
                         attrs)
               ++ ">" ++ inner ++ "</" ++ name ++ ">"
  end.

(** Headings with the ATX prefix, paragraphs followed by a blank line,
    [script] and [style] dropped, any other tag rendered as its
    contents. *)
Fixpoint render (e : PageElement) : string :=
  match e with
  | Str k s => if interesting k then s else EmptyString
  | Tag name _ cs =>
      let inner := PyStr.join_empty (map render cs) in
      if String.eqb name "h1" then "# " ++ inner ++ PyStr.nl ++ PyStr.nl
      else if String.eqb name "h2"
           then "## " ++ inner ++ PyStr.nl ++ PyStr.nl
      else if String.eqb name "p" then inner ++ PyStr.nl ++ PyStr.nl
      else if String.eqb name "script" || String.eqb name "style"
           then EmptyString
      else inner
  end.

Definition article_T : PageElement :=
  Tag "article" [] [Tag "h1" [] [txt "T"]; Tag "p" [] [txt "hello world"]].

Definition example_page : PageElement := document [article_T].

Definition two_headings_page : PageElement :=
  document [Tag "h1" [] [txt "Site"]; article_T].

Definition members_only_page : PageElement :=
  document [Tag "div" [] [Tag "h1" [] [txt "Sign in"];
                          Tag "p" [] [txt "Members only"]]].

Definition untitled_article : PageElement :=
  Tag "article" [] [Tag "p" [] [txt "notes without a heading"]].

Definition untitled_page : PageElement := document [untitled_article].

Definition async_page : PageElement :=
  document
    [Tag "article" []
       [Tag "h1" [] [txt " Async in Python "];
        Tag "a" [("data-testid", "authorName"); ("href", "/@ada")]
            [txt "Ada"];
        Tag "span" [("data-testid", "readingTime")] [txt "5 min read"];
        Tag "p" [] [txt "await  the future"];
        Tag "script" [] [Str Script "var x = 1;"]]].

Definition bare_page : PageElement :=
  document [Tag "p" [] [txt "just text"]].

(** One entry of a results page. *)
Definition preview (title href author : string) : PageElement :=
  Tag "div" [("data-test-id", "postPreview")]
      [Tag "a" [("href", href)] [Tag "h3" [] [txt title]];
       Tag "a" [("data-testid", "authorName"); ("href", "/@" ++ author)]
           [txt author]].

Definition long_title : string :=
  "A very long headline that keeps going well past the one hundred "
  ++ "character mark so that the snippet has to be cut".

Definition python_results : PageElement :=
  document
    [Tag "div" []
       [preview "Intro to Python" "/p/intro" "Ann";
        preview long_title "/p/long" "Bob";
        preview "Decorators" "/p/decorators" "Cy";
        preview "Generators" "/p/generators" "Di";
        preview "Typing" "/p/typing" "Ed"]].

(** Five entries; the second has a heading and no link. *)
Definition pandas_results : PageElement :=
  document
    [Tag "div" []
       [preview "Pandas basics" "/p/basics" "Ann";
        Tag "div" [("data-test-id", "postPreview")]
            [Tag "h3" [] [txt "Promoted"]];
        preview "Group by" "/p/groupby" "Cy";
        preview "Joins" "/p/joins" "Di";
        preview "Pivot" "/p/pivot" "Ed"]].

(** One entry, published under a publication's own domain. *)
Definition rust_results : PageElement :=
  document
    [Tag "div" []
       [preview "Ownership" "https://blog.example.org/ownership" "Flo"]].

Definition empty_results : PageElement :=
  document [Tag "div" [] [Tag "p" [] [txt "No results"]]].

Definition site : list (string * PageElement) :=
  [("https://medium.com/p/example", example_page);
   ("https://medium.com/p/two-headings", two_headings_page);
   ("https://medium.com/p/members-only", members_only_page);
   ("https://medium.com/p/untitled", untitled_page);
   ("https://medium.com/p/async", async_page);
   ("https://medium.com/p/bare", bare_page);
   ("https://medium.com/p/empty", document [])].

Definition searches : list (string * PageElement) :=
  [("python", python_results);
   ("pandas", pandas_results);
   ("rust", rust_results);
   ("zzz", empty_results)].

Fixpoint lookup {A} (table : list (string * A)) (key : string)
  : option A :=
  match table with
  | [] => None
  | (k, v) :: r => if String.eqb k key then Some v else lookup r key
  end.

(** The parser: the tree of a known source text. *)
Definition parser (html : string) : PageElement :=
  match List.find (fun d => String.eqb (markup d) html)
                  (map snd site ++ map snd searches)%list with
  | Some d => d
  | None => document []
  end.

Definition get_search (s : ClientSession) (url : string)
           (params : list (string * pyval)) : outcome aio_response :=
  match Dispatch.kw_get params "q" with
  | Some (PStr q) =>
      match lookup searches q with
      | Some d => Return (mk_aio 200 (markup d))
      | None => Return (mk_aio 503 EmptyString)
      end
  | _ => Return (mk_aio 400 EmptyString)
  end.

Definition get_page (timeout : Z) (url : pyval) : outcome httpx_response :=
  match url with
  | PStr u =>
      match lookup site u with
      | Some d => Return (mk_httpx 200 (markup d))
      | None => Return (mk_httpx 404 "Not Found")
      end
  | _ => Raise (TypeError "Invalid type for url")
  end.

Definition check_status (r : httpx_response) : option exn :=
  if ((200 <=? status_code r) && (status_code r <? 300))%Z then None
  else Some (mk_exn "HTTPStatusError"
                    ("Error response " ++ PyStr.str_int (status_code r))
                    true).

Definition env : Env :=
  mk_env get_search get_page check_status parser markup
         (fun _ html => render (parser html)).

(** A server that has not opened its session and logged nothing. *)
Definition fresh : state := mk_state None [].

(** The payload of the search for [python] with the default limit. *)
Definition python_payload : list TextContent :=
  match fst (Server._search_medium_articles env (PStr "python")
               PNone (PInt 10) fresh) with
  | Return p => p
  | Raise _ => []
  end.

End Demo.

(** ** Notions the properties are stated with *)

Module Notions.

(** The number of whitespace-delimited tokens of a text: the number of
    places where a run of non-whitespace characters starts.  [inside]
    says that the previous character belongs to a run. *)
Fixpoint tokens_from (inside : bool) (s : string) : nat :=
  match s with
  | EmptyString => 0
  | String c r =>
      if PyStr.isspace c then tokens_from false r
      else (if inside then 0 else 1) + tokens_from true r
  end.

Definition whitespace_tokens (s : string) : nat := tokens_from false s.

(** No character of the text is whitespace. *)
Fixpoint no_space (s : string) : bool :=
  match s with
  | EmptyString => true
  | String c r => negb (PyStr.isspace c) && no_space r
  end.

(** A result entry has a heading ([h3], else [h2]) and a link. *)
Definition has_heading_and_link (c : Soup.PageElement) : bool :=
  match Soup.find "h3" [] c, Soup.find "h2" [] c, Soup.find "a" [] c with
  | None, None, _ => false
  | _, _, None => false
  | _, _, Some _ => true
  end.

(** The summaries of a list of entries: one for each entry that yields
    one, in the order of the entries. *)
Definition summaries (elements : list Soup.PageElement)
  : list Json.value :=
  flat_map (fun c => match Server.summary_of c with
                     | Some d => [d]
                     | None => []
                     end) elements.

(** The session a search uses in a given state: the open one, or the one
    it opens. *)
Definition session_in (st : state) : ClientSession :=
  match session st with
  | Some s => s
  | None => mk_session 30
  end.

Definition with_session (st : state) : state :=
  mk_state (Some (session_in st)) (log st).

Definition logged (lvl : log_level) (msg : string) (st : state) : state :=
  mk_state (session st) (log st ++ [(lvl, msg)])%list.

(** The string value of a field of a JSON object. *)
Definition str_field (v : Json.value) (key : string) : option string :=
  match v with
  | Json.JDict items =>
      match Json.field items key with
      | Some (Json.JStr s) => Some s
      | _ => None
      end
  | _ => None
  end.

(** The post-preview containers of a fetched results page, in document
    order. *)
Definition post_previews (env : Env) (response : aio_response)
  : list Soup.PageElement :=
  Soup.find_all "div" [("data-test-id", "postPreview")]
                (BeautifulSoup env (aio_text response)).

(** The summary is the one of a container of the page, and its [url] is
    that of the first link of this container: the origin put before an
    [href] that starts with [/], any other [href] unchanged. *)
Definition url_from_first_link (env : Env) (response : aio_response)
           (s : Json.value) : Prop :=
  exists container link url,
    In container (post_previews env response)
    /\ Server.summary_of container = Some s
    /\ Soup.find "a" [] container = Some link
    /\ str_field s "url" = Some url
    /\ (PyStr.startswith (Soup.get link "href" "") "/" = true ->
        url = Server.origin ++ Soup.get link "href" ""
        /\ PyStr.startswith url Server.origin = true)
    /\ (PyStr.startswith (Soup.get link "href" "") "/" = false ->
        url = Soup.get link "href" "").

(** The [snippet] of a summary is its [title], cut after 100 characters
    and followed by three dots when the title is longer. *)
Definition snippet_from_title (s : Json.value) : Prop :=
  exists title snippet,
    str_field s "title" = Some title
    /\ str_field s "snippet" = Some snippet
    /\ (String.length title <= 100 -> snippet = title)
    /\ (100 < String.length title ->
        exists head rest,
          title = head ++ rest /\ String.length head = 100
          /\ snippet = head ++ "...")
    /\ String.length snippet <= 103.

(** The three lines a conversion puts before the rendered article: the
    heading with the title, the attribution with the requested address,
    the separator, each followed by an empty line. *)
Definition convert_header (title : string) (url : pyval) : string :=
  "# " ++ title ++ PyStr.nl ++ PyStr.nl
       ++ "**Source:** " ++ py_str url ++ PyStr.nl ++ PyStr.nl
       ++ "---" ++ PyStr.nl ++ PyStr.nl.

End Notions.

(** ** The advertised tools: [list_tools] *)

Module Tools.
Import Json.

Record Tool := mk_tool {
  tool_name : string;
  tool_description : string;
  inputSchema : Json.value
}.

(** [list_tools] *)
Definition list_tools : list Tool :=
  [mk_tool "search_medium_articles"
     "Search for Medium articles by keyword or tag"
     (JDict
        [("type", JStr "object");
         ("properties",
           JDict
             [("query",
                JDict [("type", JStr "string");
                       ("description", JStr "Search query for articles")]);
              ("tag",
                JDict [("type", JStr "string");
                       ("description",
                         JStr ("Medium tag to search "
                                 ++ "(e.g., 'python', 'technology')"))]);
              ("limit",
                JDict [("type", JStr "integer");
                       ("description",
                         JStr "Maximum number of results to return");
                       ("default", JInt 10)])]);
         ("required", JList [JStr "query"])]);
   mk_tool "convert_medium_to_markdown"
     "Convert a Medium article URL to markdown"
     (JDict
        [("type", JStr "object");
         ("properties",
           JDict
             [("url",
                JDict [("type", JStr "string");
                       ("description",
                         JStr "Medium article URL to convert")]);
              ("include_images",
                JDict [("type", JStr "boolean");
                       ("description",
                         JStr ("Whether to include image references "
                                 ++ "in markdown"));
                       ("default", JBool true)]);
              ("include_code",
                JDict [("type", JStr "boolean");
                       ("description",
                         JStr "Whether to preserve code blocks");
                       ("default", JBool true)])]);
         ("required", JList [JStr "url"])]);
   mk_tool "get_medium_article_info"
     "Get metadata about a Medium article without full content"
     (JDict
        [("type", JStr "object");
         ("properties",
           JDict
             [("url",
                JDict [("type", JStr "string");
                       ("description", JStr "Medium article URL")])]);
         ("required", JList [JStr "url"])])].

(** The [properties] object of an input schema. *)
Definition schema_properties (schema : Json.value)
  : list (string * Json.value) :=
  match schema with
  | JDict items =>
      match Json.field items "properties" with
      | Some (JDict ps) => ps
      | _ => []
      end
  | _ => []
  end.

(** The names in the [required] array of an input schema. *)
Definition schema_required (schema : Json.value) : list string :=
  match schema with
  | JDict items =>
      match Json.field items "required" with
      | Some (JList names) =>
          flat_map (fun v => match v with JStr n => [n] | _ => [] end) names
      | _ => []
      end
  | _ => []
  end.

(** The [default] of one property of a schema, if it declares one. *)
Definition schema_default (schema : Json.value) (param : string)
  : option Json.value :=
  match Json.field (schema_properties schema) param with
  | Some (JDict items) => Json.field items "default"
  | _ => None
  end.

End Tools.

(** ** The life of the server object *)

Module Lifecycle.

(** [close]: the open session, if any, is closed and forgotten. *)
Definition close : M unit :=
  fun st =>
    match session st with
    | Some _ => (Return tt, mk_state None (log st))
    | None => (Return tt, st)
    end.

(** What a client can ask of one server, one request after the other. *)
Inductive request :=
| ToolCall (name : string) (arguments : option Dispatch.kwargs)
| Close.

Definition step (env : Env) (st : state) (r : request) : state :=
  match r with
  | ToolCall name arguments => snd (Dispatch.call_tool env name arguments st)
  | Close => snd (close st)
  end.

(** The state after a sequence of requests. *)
Definition serve (env : Env) (requests : list request) (st : state)
  : state :=
  fold_left (step env) requests st.

(** The session, when there is one, has the total timeout of 30. *)
Definition session_ok (st : state) : Prop :=
  session st = None \/ session st = Some (mk_session 30).

End Lifecycle.

(** ** More notions *)

Module Shape.

(** The text starts with a whitespace character. *)
Definition leading_space (s : string) : bool :=
  match s with
  | EmptyString => false
  | String c _ => PyStr.isspace c
  end.

(** The text ends with a whitespace character. *)
Fixpoint trailing_space (s : string) : bool :=
  match s with
  | EmptyString => false
  | String c EmptyString => PyStr.isspace c
  | String _ r => trailing_space r
  end.

Definition trimmed (s : string) : Prop :=
  leading_space s = false /\ trailing_space s = false.

(** Every character of the text is whitespace. *)
Fixpoint all_space (s : string) : bool :=
  match s with
  | EmptyString => true
  | String c r => PyStr.isspace c && all_space r
  end.

(** The text is non-empty and its first character is no whitespace. *)
Definition starts_in_word (s : string) : bool :=
  match s with
  | EmptyString => false
  | String c _ => negb (PyStr.isspace c)
  end.

(** The text is non-empty and its last character is no whitespace. *)
Fixpoint ends_in_word (s : string) : bool :=
  match s with
  | EmptyString => false
  | String c EmptyString => negb (PyStr.isspace c)
  | String _ r => ends_in_word r
  end.

(** The keys of a JSON object, in order. *)
Definition keys (v : Json.value) : list string :=
  match v with
  | Json.JDict items => map fst items
  | _ => []
  end.

(** [l1] is an initial segment of [l2]. *)
Definition initial_segment {A} (l1 l2 : list A) : Prop :=
  exists rest, l2 = (l1 ++ rest)%list.

(** The payload of a failed call. *)
Definition error_payload (msg : string) : list TextContent :=
  [mk_text "text" ("Error: " ++ msg)].

End Shape.

(** ** A second small site *)

Module Sample.
Import Soup.

(** Two paragraphs with no whitespace between them. *)
Definition two_paragraphs : PageElement :=
  Demo.document [Tag "p" [] [Demo.txt "one two"];
                 Tag "p" [] [Demo.txt "three"]].

Definition parser (html : string) : PageElement :=
  if String.eqb html (Demo.markup two_paragraphs) then two_paragraphs
  else Demo.document [].

Definition get_page (timeout : Z) (url : pyval) : outcome httpx_response :=
  Return (mk_httpx 200 (Demo.markup two_paragraphs)).

Definition env : Env :=
  mk_env Demo.get_search get_page Demo.check_status parser Demo.markup
         (fun _ html => Demo.render (parser html)).

(** The exception a cancelled task finds at its [await]. *)
Definition cancelled : exn := mk_exn "CancelledError" EmptyString false.

(** A world in which the task is cancelled while it awaits a fetch. *)
Definition cancelled_env : Env :=
  mk_env (fun _ _ _ => Raise cancelled) (fun _ _ => Raise cancelled)
         Demo.check_status parser Demo.markup
         (fun _ html => Demo.render (parser html)).

End Sample.

(** * Properties *)

(** ** Strings *)

Module PyStrFacts.
Import PyStr Notions.

Lemma length_app (s t : string) :
  String.length (s ++ t) = String.length s + String.length t.
Proof.
  induction s as [|c s IH]; simpl; [reflexivity | now rewrite IH].
Qed.

Lemma app_assoc (s t u : string) : (s ++ t) ++ u = s ++ t ++ u.
Proof.
  induction s as [|c s IH]; simpl; [reflexivity | now rewrite IH].
Qed.

Lemma slice_to_length (n : nat) (s : string) :
  String.length (slice_to n s) <= n.
Proof.
  revert s; induction n as [|n IH]; intros [|c r]; simpl; try lia.
  specialize (IH r); lia.
Qed.

Lemma slice_to_exact (n : nat) (s : string) :
  n <= String.length s -> String.length (slice_to n s) = n.
Proof.
  revert s; induction n as [|n IH]; intros [|c r]; simpl; intros H;
    try lia.
  rewrite IH; lia.
Qed.

Lemma slice_to_prefix (n : nat) (s : string) :
  exists rest, s = slice_to n s ++ rest.
Proof.
  revert s; induction n as [|n IH]; intros s.
  - exists s; reflexivity.
  - destruct s as [|c r]; simpl.
    + exists EmptyString; reflexivity.
    + destruct (IH r) as [rest Hr]. exists rest. now rewrite <- Hr.
Qed.

Lemma prefix_app (p r : string) : String.prefix p (p ++ r) = true.
Proof.
  induction p as [|c p IH]; simpl.
  - destruct r; reflexivity.
  - destruct (ascii_dec c c) as [_|N]; [exact IH | now elim N].
Qed.

Lemma prefix_inv (p s : string) :
  String.prefix p s = true -> exists r, s = p ++ r.
Proof.
  revert s; induction p as [|c p IH]; intros s H.
  - exists s; reflexivity.
  - destruct s as [|d s]; simpl in H; [discriminate|].
    destruct (ascii_dec c d) as [->|]; [|discriminate].
    destruct (IH s H) as [r ->]. exists r; reflexivity.
Qed.

Lemma contains_split (s sub : string) :
  contains s sub = true -> exists a b, s = a ++ sub ++ b.
Proof.
  induction s as [|c s IH]; intros H.
  - destruct sub; [|discriminate].
    exists EmptyString, EmptyString; reflexivity.
  - cbn [contains] in H. apply orb_true_iff in H as [H|H].
    + apply prefix_inv in H as [r Hr]. exists EmptyString, r; exact Hr.
    + destruct (IH H) as (a & b & ->).
      exists (String c a), b; reflexivity.
Qed.

(** The scanning loop yields one token per run of non-whitespace
    characters; a token under construction counts as a started run. *)
Lemma split_from_count (s cur : string) :
  length (split_from cur s)
  = if is_empty cur then tokens_from false s
    else 1 + tokens_from true s.
Proof.
  revert cur; induction s as [|c r IH]; intros cur; simpl.
  - destruct cur; reflexivity.
  - destruct (isspace c).
    + destruct cur; simpl; rewrite IH; reflexivity.
    + rewrite IH. destruct cur; reflexivity.
Qed.

Lemma split_count (s : string) :
  length (split s) = whitespace_tokens s.
Proof. unfold split. now rewrite split_from_count. Qed.

Lemma no_space_app (s t : string) :
  no_space (s ++ t) = no_space s && no_space t.
Proof.
  induction s as [|c s IH]; simpl; [reflexivity|].
  now rewrite IH, andb_assoc.
Qed.

(** Every token is non-empty and free of whitespace. *)
Lemma split_from_clean (s cur : string) :
  no_space cur = true ->
  Forall (fun w => w <> EmptyString /\ no_space w = true)
         (split_from cur s).
Proof.
  revert cur; induction s as [|c r IH]; intros cur Hc; simpl.
  - destruct cur; constructor; [split; [discriminate | exact Hc] | constructor].
  - destruct (isspace c) eqn:E.
    + destruct cur.
      * apply IH; reflexivity.
      * constructor; [split; [discriminate | exact Hc] | apply IH; reflexivity].
    + apply IH. rewrite no_space_app, Hc. simpl. now rewrite E.
Qed.

End PyStrFacts.

(** ** The handlers, run *)

Module ServerFacts.
Import Notions.

Ltac run_monad :=
  unfold bind, lift, try_except, raise, ret, emit, logged; simpl.

Section Runs.

Variable env : Env.

Lemma collect_run (elements : list Soup.PageElement)
      (articles : list Json.value) (st : state) :
  Server.collect elements articles st
  = (Return (articles ++ summaries elements)%list, st).
Proof.
  revert articles; induction elements as [|c rest IH]; intros articles.
  - simpl. unfold ret. now rewrite List.app_nil_r.
  - simpl. unfold bind at 1. unfold try_except, ret at 1.
    rewrite IH. unfold summaries at 2. simpl.
    destruct (Server.summary_of c); simpl.
    + now rewrite <- List.app_assoc.
    + reflexivity.
Qed.

(** What a search does, case by case. *)
Lemma search_run (query tag limit : pyval) (st : state) :
  Server._search_medium_articles env query tag limit st
  = let failed e :=
      (@Raise (list TextContent) e,
       if is_Exception e
       then logged ERROR ("Error searching Medium articles: " ++ exn_msg e)
                   (with_session st)
       else with_session st) in
    match aiohttp_get env (session_in st) Server.search_url
                      (Server.search_params query tag) with
    | Raise e => failed e
    | Return response =>
        if negb (status response =? 200)%Z
        then failed (Exception ("Search failed: "
                                  ++ PyStr.str_int (status response)))
        else
          match Server.slice_stop
                  (Soup.find_all "div" [("data-test-id", "postPreview")]
                     (BeautifulSoup env (aio_text response))) limit with
          | Raise e => failed e
          | Return elements =>
              (Return [mk_text "text"
                         (Json.dumps (Json.JList (summaries elements)))],
               with_session st)
          end
    end.
Proof.
  destruct st as [[s|] lg];
    unfold Server._search_medium_articles, Server._get_session,
           with_session, session_in; run_monad.
  all: match goal with
       | |- context [aiohttp_get env ?s ?u ?p] =>
           destruct (aiohttp_get env s u p) as [response|e]; simpl;
           [|destruct (is_Exception e); reflexivity]
       end.
  all: destruct (status response =? 200)%Z; simpl; [|reflexivity].
  all: match goal with
       | |- context [Server.slice_stop ?l ?v] =>
           destruct (Server.slice_stop l v) as [elements|e]; simpl;
           [|destruct (is_Exception e); reflexivity]
       end.
  all: rewrite collect_run; reflexivity.
Qed.

(** A search that returns has fetched a page with status 200 and sliced
    the entries; its payload is the JSON text of their summaries. *)
Lemma search_returns_inv (query tag limit : pyval) (st st' : state)
      (payload : list TextContent) :
  Server._search_medium_articles env query tag limit st
  = (Return payload, st') ->
  exists response elements,
    aiohttp_get env (session_in st) Server.search_url
                (Server.search_params query tag) = Return response
    /\ status response = 200%Z
    /\ Server.slice_stop
         (Soup.find_all "div" [("data-test-id", "postPreview")]
            (BeautifulSoup env (aio_text response))) limit
       = Return elements
    /\ payload
       = [mk_text "text" (Json.dumps (Json.JList (summaries elements)))].
Proof.
  rewrite search_run. cbv zeta.
  destruct (aiohttp_get env _ _ _) as [response|e]; [|discriminate].
  destruct (status response =? 200)%Z eqn:Hs; simpl; [|discriminate].
  destruct (Server.slice_stop _ limit) as [elements|e] eqn:Hl;
    [|discriminate].
  intros H. injection H as <- _.
  exists response, elements. repeat split; try assumption.
  now apply Z.eqb_eq.
Qed.

(** What a conversion does, case by case. *)
Lemma convert_run (url include_images include_code : pyval) (st : state) :
  Server._convert_medium_to_markdown env url include_images include_code st
  = let failed e :=
      (@Raise (list TextContent) e,
       if is_Exception e
       then logged ERROR ("Error converting Medium article: " ++ exn_msg e) st
       else st) in
    match httpx_get env 30 url with
    | Raise e => failed e
    | Return response =>
        match raise_for_status env response with
        | Some e => failed e
        | None =>
            let soup := BeautifulSoup env (text response) in
            match Soup.find "article" [] soup with
            | None => failed (Exception "Could not find article content")
            | Some article_content =>
                (Return
                   [mk_text "text"
                      ("# "
                         ++ match Soup.find "h1" [] soup with
                            | Some t => PyStr.strip (Soup.get_text t)
                            | None => "Untitled"
                            end
                         ++ PyStr.nl ++ PyStr.nl
                         ++ "**Source:** " ++ py_str url
                         ++ PyStr.nl ++ PyStr.nl
                         ++ "---" ++ PyStr.nl ++ PyStr.nl
                         ++ md_convert env Server.md
                              (tag_str env article_content))],
                 st)
            end
        end
    end.
Proof.
  unfold Server._convert_medium_to_markdown; run_monad.
  destruct (httpx_get env 30 url) as [response|e]; simpl;
    [|destruct (is_Exception e); reflexivity].
  destruct (raise_for_status env response) as [e|]; simpl;
    [destruct (is_Exception e); reflexivity|].
  destruct (Soup.find "article" [] _) as [a|]; simpl; [|reflexivity].
  unfold PyStr.nl. repeat (rewrite PyStrFacts.app_assoc; simpl).
  reflexivity.
Qed.

(** What an info call does, case by case. *)
Lemma info_run (url : pyval) (st : state) :
  Server._get_medium_article_info env url st
  = let failed e :=
      (@Raise (list TextContent) e,
       if is_Exception e
       then logged ERROR ("Error getting article info: " ++ exn_msg e) st
       else st) in
    match httpx_get env 30 url with
    | Raise e => failed e
    | Return response =>
        match raise_for_status env response with
        | Some e => failed e
        | None =>
            (Return
               [mk_text "text"
                  (Json.dumps
                     (Json.JDict
                        (Server.article_info env url (text response))))],
             st)
        end
    end.
Proof.
  unfold Server._get_medium_article_info; run_monad.
  destruct (httpx_get env 30 url) as [response|e]; simpl;
    [|destruct (is_Exception e); reflexivity].
  destruct (raise_for_status env response) as [e|];
    [destruct (is_Exception e)|]; reflexivity.
Qed.

End Runs.

End ServerFacts.

(** ** Search results *)

Module SearchFacts.
Import Notions.

Lemma snippet_short (title : string) :
  String.length title <= 100 -> Server.snippet_of title = title.
Proof.
  intros H. unfold Server.snippet_of.
  destruct (Nat.ltb_spec 100 (String.length title)); [lia | reflexivity].
Qed.

Lemma snippet_long (title : string) :
  100 < String.length title ->
  exists head rest,
    title = head ++ rest /\ String.length head = 100
    /\ Server.snippet_of title = head ++ "...".
Proof.
  intros H. unfold Server.snippet_of.
  destruct (Nat.ltb_spec 100 (String.length title)); [|lia].
  destruct (PyStrFacts.slice_to_prefix 100 title) as [rest Hr].
  exists (PyStr.slice_to 100 title), rest. repeat split.
  - exact Hr.
  - apply PyStrFacts.slice_to_exact; lia.
Qed.

Lemma snippet_length (title : string) :
  String.length (Server.snippet_of title) <= 103.
Proof.
  unfold Server.snippet_of.
  destruct (Nat.ltb_spec 100 (String.length title)); [|lia].
  rewrite PyStrFacts.length_app.
  pose proof (PyStrFacts.slice_to_length 100 title).
  change (String.length "...") with 3. lia.
Qed.

(** The dictionary an entry yields, and the nodes it is built from. *)
Lemma summary_of_some (c : Soup.PageElement) (d : Json.value) :
  Server.summary_of c = Some d ->
  exists heading link,
    (Soup.find "h3" [] c = Some heading
     \/ (Soup.find "h3" [] c = None /\ Soup.find "h2" [] c = Some heading))
    /\ Soup.find "a" [] c = Some link
    /\ d = Json.JDict
             [("title", Json.JStr (PyStr.strip (Soup.get_text heading)));
              ("url", Json.JStr
                        (Server.resolve_url (Soup.get link "href" "")));
              ("author",
                Json.JStr
                  match Soup.find "a" [("data-testid", "authorName")] c with
                  | Some a => PyStr.strip (Soup.get_text a)
                  | None => "Unknown"
                  end);
              ("snippet",
                Json.JStr (Server.snippet_of
                             (PyStr.strip (Soup.get_text heading))))].
Proof.
  unfold Server.summary_of.
  destruct (Soup.find "h3" [] c) as [h3|] eqn:E3.
  - destruct (Soup.find "a" [] c) as [u|]; [|discriminate].
    intros H; injection H as <-. exists h3, u. repeat split. now left.
  - destruct (Soup.find "h2" [] c) as [h2|] eqn:E2; [|discriminate].
    destruct (Soup.find "a" [] c) as [u|]; [|discriminate].
    intros H; injection H as <-. exists h2, u. repeat split. now right.
Qed.

Lemma summary_of_none (c : Soup.PageElement) :
  Server.summary_of c = None <-> has_heading_and_link c = false.
Proof.
  unfold Server.summary_of, has_heading_and_link.
  destruct (Soup.find "h3" [] c), (Soup.find "h2" [] c),
           (Soup.find "a" [] c); split; intros H;
    try reflexivity; discriminate.
Qed.

Lemma summaries_cons (c : Soup.PageElement) (l : list Soup.PageElement) :
  summaries (c :: l)
  = (match Server.summary_of c with
     | Some d => [d]
     | None => []
     end ++ summaries l)%list.
Proof. reflexivity. Qed.

(** The summaries are those of the entries with a heading and a link,
    entry by entry. *)
Lemma summaries_filter (l : list Soup.PageElement) :
  map Some (summaries l)
  = map Server.summary_of (filter has_heading_and_link l).
Proof.
  induction l as [|c l IH]; [reflexivity|].
  rewrite summaries_cons. cbn [filter].
  destruct (Server.summary_of c) as [d|] eqn:E.
  - destruct (has_heading_and_link c) eqn:W.
    + cbn [map List.app]. now rewrite IH, E.
    + apply summary_of_none in W. congruence.
  - rewrite (proj1 (summary_of_none c) E). exact IH.
Qed.

Lemma summaries_length (l : list Soup.PageElement) :
  length (summaries l) <= length l.
Proof.
  induction l as [|c l IH]; [apply Nat.le_refl|].
  rewrite summaries_cons, List.length_app.
  destruct (Server.summary_of c); cbn [length]; lia.
Qed.

Lemma summaries_all (l : list Soup.PageElement) :
  forallb has_heading_and_link l = true ->
  length (summaries l) = length l.
Proof.
  induction l as [|c l IH]; [reflexivity|].
  cbn [forallb]. intros H. apply andb_true_iff in H as [Hc Hl].
  rewrite summaries_cons, List.length_app, (IH Hl).
  destruct (Server.summary_of c) eqn:E; [reflexivity|].
  apply summary_of_none in E. congruence.
Qed.

Lemma In_summaries (s : Json.value) (l : list Soup.PageElement) :
  In s (summaries l) ->
  exists c, In c l /\ Server.summary_of c = Some s.
Proof.
  unfold summaries. rewrite in_flat_map. intros (c & Hc & Hs).
  exists c. split; [exact Hc|].
  destruct (Server.summary_of c); cbn [In] in Hs; [|contradiction].
  destruct Hs as [->|[]]. reflexivity.
Qed.

Lemma In_firstn {A} (n : nat) (l : list A) (x : A) :
  In x (firstn n l) -> In x l.
Proof.
  intros H. rewrite <- (firstn_skipn n l). apply in_or_app. now left.
Qed.

(** A slice holds elements of the list only. *)
Lemma slice_stop_In {A} (l els : list A) (stop : pyval) (x : A) :
  Server.slice_stop l stop = Return els -> In x els -> In x l.
Proof.
  destruct stop as [|b|z|s]; cbn [Server.slice_stop]; intros H;
    try discriminate; injection H as <-; [trivial | apply In_firstn |].
  destruct (z <? 0)%Z; apply In_firstn.
Qed.

End SearchFacts.

(** ** Properties of the search operation *)

Module SearchProps.
Import Notions.

(** C3, as stated, fails.  The results page for [pandas] has five
    post-preview containers; the second has a heading and no link.  A
    search with limit 3 returns two summaries, those of the first and the
    third container. *)
Lemma search_limit_three_of_five_returns_two :
  Demo.markup Demo.pandas_results
  = "<div>"
    ++ "<div data-test-id='postPreview'>"
    ++ "<a href='/p/basics'><h3>Pandas basics</h3></a>"
    ++ "<a data-testid='authorName' href='/@Ann'>Ann</a></div>"
    ++ "<div data-test-id='postPreview'><h3>Promoted</h3></div>"
    ++ "<div data-test-id='postPreview'>"
    ++ "<a href='/p/groupby'><h3>Group by</h3></a>"
    ++ "<a data-testid='authorName' href='/@Cy'>Cy</a></div>"
    ++ "<div data-test-id='postPreview'>"
    ++ "<a href='/p/joins'><h3>Joins</h3></a>"
    ++ "<a data-testid='authorName' href='/@Di'>Di</a></div>"
    ++ "<div data-test-id='postPreview'>"
    ++ "<a href='/p/pivot'><h3>Pivot</h3></a>"
    ++ "<a data-testid='authorName' href='/@Ed'>Ed</a></div>"
    ++ "</div>"
  /\ length (post_previews Demo.env
            (mk_aio 200 (Demo.markup Demo.pandas_results))) = 5
  /\ fst (Server._search_medium_articles Demo.env (PStr "pandas") PNone
            (PInt 3) Demo.fresh)
     = Return
         [mk_text "text"
            (Json.dumps
               (Json.JList
                  [Json.JDict
                     [("title", Json.JStr "Pandas basics");
                      ("url", Json.JStr "https://medium.com/p/basics");
                      ("author", Json.JStr "Ann");
                      ("snippet", Json.JStr "Pandas basics")];
                   Json.JDict
                     [("title", Json.JStr "Group by");
                      ("url", Json.JStr "https://medium.com/p/groupby");
                      ("author", Json.JStr "Cy");
                      ("snippet", Json.JStr "Group by")]]))].
Proof. repeat split; vm_compute; reflexivity. Qed.

(** C3, amended.  A search with a limit [limit >= 0] whose fetch answers
    with status 200 returns the JSON text of a list of summaries.  The
    list holds, in document order, the summary of each of the first
    [limit] post-preview containers that has a heading ([h3], else [h2])
    and a link; so it has at most [limit] members.  With five containers
    and limit 3 it has exactly three members when each of the first three
    containers has a heading and a link.  With no container the text is
    the empty JSON list, and no error is raised. *)
Theorem search_returns_summaries_of_first_limit
        (env : Env) (query tag : pyval) (limit : Z) (st : state)
        (response : aio_response) :
  (0 <= limit)%Z ->
  aiohttp_get env (session_in st) Server.search_url
              (Server.search_params query tag) = Return response ->
  status response = 200%Z ->
  let containers := post_previews env response in
  let taken := firstn (Z.to_nat limit) containers in
  exists list,
    Server._search_medium_articles env query tag (PInt limit) st
    = (Return [mk_text "text" (Json.dumps (Json.JList list))],
       with_session st)
    /\ map Some list
       = map Server.summary_of (filter has_heading_and_link taken)
    /\ length list <= Z.to_nat limit
    /\ (length containers = 5 -> limit = 3%Z ->
        forallb has_heading_and_link taken = true -> length list = 3)
    /\ (containers = [] -> Json.dumps (Json.JList list) = "[]").
Proof.
  intros Hlimit Hget Hstatus containers taken.
  exists (summaries taken). split; [|split; [|split; [|split]]].
  - rewrite ServerFacts.search_run. cbv zeta. rewrite Hget, Hstatus.
    cbn [Z.eqb Pos.eqb negb Server.slice_stop].
    destruct (Z.ltb_spec limit 0); [lia | reflexivity].
  - apply SearchFacts.summaries_filter.
  - etransitivity; [apply SearchFacts.summaries_length|].
    apply firstn_le_length.
  - intros H5 -> Hall. rewrite (SearchFacts.summaries_all _ Hall).
    unfold taken. rewrite length_firstn, H5. reflexivity.
  - intros Hnone. unfold taken. rewrite Hnone, firstn_nil. reflexivity.
Qed.

Lemma search_returns_summaries_of_first_limit_witness :
  (0 <= 3)%Z
  /\ exists list,
       Server._search_medium_articles Demo.env (PStr "python") PNone
         (PInt 3) Demo.fresh
       = (Return [mk_text "text" (Json.dumps (Json.JList list))],
          with_session Demo.fresh)
       /\ length list = 3.
Proof.
  split; [lia|].
  destruct (search_returns_summaries_of_first_limit
              Demo.env (PStr "python") PNone 3 Demo.fresh
              (mk_aio 200 (Demo.markup Demo.python_results)))
    as (list & Hrun & _ & _ & Hthree & _);
    [lia | reflexivity | reflexivity |].
  exists list. split; [exact Hrun|].
  apply Hthree; vm_compute; reflexivity.
Defined.

(** C4, as stated, fails.  The only entry of the results page for
    [rust] links to a publication's own domain.  Its summary carries that
    address unchanged, and the address does not start with the site
    origin. *)
Lemma search_url_outside_origin :
  Demo.markup Demo.rust_results
  = "<div><div data-test-id='postPreview'>"
    ++ "<a href='https://blog.example.org/ownership'><h3>Ownership</h3></a>"
    ++ "<a data-testid='authorName' href='/@Flo'>Flo</a></div></div>"
  /\ fst (Server._search_medium_articles Demo.env (PStr "rust") PNone
         (PInt 10) Demo.fresh)
  = Return
      [mk_text "text"
         (Json.dumps
            (Json.JList
               [Json.JDict
                  [("title", Json.JStr "Ownership");
                   ("url", Json.JStr "https://blog.example.org/ownership");
                   ("author", Json.JStr "Flo");
                   ("snippet", Json.JStr "Ownership")]]))]
  /\ PyStr.startswith "https://blog.example.org/ownership" Server.origin
     = false.
Proof. repeat split; vm_compute; reflexivity. Qed.

(** C4, amended.  Every summary a search returns is the summary of a
    post-preview container of the fetched page, and its [url] is derived
    from the [href] of the first link of that same container (the empty
    string when the link has none): when the [href] starts with [/] the [url] is
    the site origin followed by the [href], and so starts with the
    origin; otherwise the [url] is the [href] unchanged. *)
Theorem summary_url_resolved
        (env : Env) (query tag limit : pyval) (st st' : state)
        (payload : list TextContent) :
  Server._search_medium_articles env query tag limit st
  = (Return payload, st') ->
  exists response list,
    aiohttp_get env (session_in st) Server.search_url
                (Server.search_params query tag) = Return response
    /\ payload = [mk_text "text" (Json.dumps (Json.JList list))]
    /\ Forall (url_from_first_link env response) list.
Proof.
  intros Hrun.
  destruct (ServerFacts.search_returns_inv env _ _ _ _ _ _ Hrun)
    as (response & elements & Hget & _ & Hslice & ->).
  exists response, (summaries elements).
  split; [exact Hget | split; [reflexivity|]].
  apply Forall_forall. intros s Hs.
  destruct (SearchFacts.In_summaries _ _ Hs) as (c & Hc & Hsum).
  destruct (SearchFacts.summary_of_some _ _ Hsum)
    as (heading & link & _ & Hlink & ->).
  exists c, link, (Server.resolve_url (Soup.get link "href" "")).
  split; [exact (SearchFacts.slice_stop_In _ _ _ _ Hslice Hc)|].
  split; [exact Hsum|].
  split; [exact Hlink|]. split; [reflexivity|].
  unfold Server.resolve_url.
  split; intros ->; [|reflexivity].
  split; [reflexivity|]. apply PyStrFacts.prefix_app.
Qed.

Lemma summary_url_resolved_witness :
  Server._search_medium_articles Demo.env (PStr "python") PNone (PInt 10)
                                 Demo.fresh
  = (Return Demo.python_payload, with_session Demo.fresh)
  /\ exists response list,
       aiohttp_get Demo.env (session_in Demo.fresh) Server.search_url
                   (Server.search_params (PStr "python") PNone)
       = Return response
       /\ Demo.python_payload
          = [mk_text "text" (Json.dumps (Json.JList list))]
       /\ Forall (url_from_first_link Demo.env response) list.
Proof.
  assert (Hrun : Server._search_medium_articles Demo.env (PStr "python")
                   PNone (PInt 10) Demo.fresh
                 = (Return Demo.python_payload, with_session Demo.fresh))
    by (vm_compute; reflexivity).
  split; [exact Hrun|].
  exact (summary_url_resolved _ _ _ _ _ _ _ Hrun).
Defined.

(** C5.  Every summary a search returns has a [title] and a [snippet];
    the snippet is the title itself when the title has at most 100
    characters, and otherwise the first 100 characters of the title
    followed by three dots; so the snippet has at most 103
    characters. *)
Theorem summary_snippet_truncated
        (env : Env) (query tag limit : pyval) (st st' : state)
        (payload : list TextContent) :
  Server._search_medium_articles env query tag limit st
  = (Return payload, st') ->
  exists list,
    payload = [mk_text "text" (Json.dumps (Json.JList list))]
    /\ Forall snippet_from_title list.
Proof.
  intros Hrun.
  destruct (ServerFacts.search_returns_inv env _ _ _ _ _ _ Hrun)
    as (response & elements & _ & _ & _ & ->).
  exists (summaries elements). split; [reflexivity|].
  apply Forall_forall. intros s Hs.
  destruct (SearchFacts.In_summaries _ _ Hs) as (c & _ & Hsum).
  destruct (SearchFacts.summary_of_some _ _ Hsum)
    as (heading & link & _ & _ & ->).
  exists (PyStr.strip (Soup.get_text heading)),
         (Server.snippet_of (PyStr.strip (Soup.get_text heading))).
  split; [reflexivity | split; [reflexivity|]].
  split; [apply SearchFacts.snippet_short|].
  split; [apply SearchFacts.snippet_long | apply SearchFacts.snippet_length].
Qed.

Lemma summary_snippet_truncated_witness :
  Server._search_medium_articles Demo.env (PStr "python") PNone (PInt 10)
                                 Demo.fresh
  = (Return Demo.python_payload, with_session Demo.fresh)
  /\ exists list,
       Demo.python_payload
       = [mk_text "text" (Json.dumps (Json.JList list))]
       /\ Forall snippet_from_title list.
Proof.
  assert (Hrun : Server._search_medium_articles Demo.env (PStr "python")
                   PNone (PInt 10) Demo.fresh
                 = (Return Demo.python_payload, with_session Demo.fresh))
    by (vm_compute; reflexivity).
  split; [exact Hrun|].
  exact (summary_snippet_truncated _ _ _ _ _ _ _ Hrun).
Defined.

End SearchProps.

(** ** Properties of the conversion *)

Module ConvertProps.
Import Notions.

Lemma convert_header_app (title : string) (url : pyval) (rest : string) :
  convert_header title url ++ rest
  = "# " ++ title ++ PyStr.nl ++ PyStr.nl
         ++ "**Source:** " ++ py_str url ++ PyStr.nl ++ PyStr.nl
         ++ "---" ++ PyStr.nl ++ PyStr.nl ++ rest.
Proof.
  unfold convert_header, PyStr.nl.
  repeat (rewrite PyStrFacts.app_assoc; simpl). reflexivity.
Qed.

Lemma first_line_before_nl (a b : string) :
  PyStr.first_line (a ++ PyStr.nl ++ b) = PyStr.first_line a.
Proof.
  induction a as [|c a IH]; [reflexivity|].
  cbn [String.append PyStr.first_line]. now rewrite IH.
Qed.

(** C1, as stated, fails.  The page served at [/p/two-headings] is
    [<h1>Site</h1><article><h1>T</h1><p>hello world</p></article>]: it
    contains the article container with the [h1] title [T] and the
    paragraph [hello world].  The conversion takes the title from the
    first [h1] of the page, so its output starts with the heading line
    [# Site], not [# T]. *)
Lemma convert_heading_is_first_h1_of_page :
  let url := "https://medium.com/p/two-headings" in
  let soup := BeautifulSoup Demo.env (Demo.markup Demo.two_headings_page) in
  Demo.markup Demo.two_headings_page
  = "<h1>Site</h1><article><h1>T</h1><p>hello world</p></article>"
  /\ Soup.find "article" [] soup = Some Demo.article_T
  /\ option_map Soup.get_text (Soup.find "h1" [] Demo.article_T) = Some "T"
  /\ option_map Soup.get_text (Soup.find "p" [] Demo.article_T)
     = Some "hello world"
  /\ exists out,
       fst (Server._convert_medium_to_markdown Demo.env (PStr url)
              (PBool true) (PBool true) Demo.fresh)
       = Return [mk_text "text" out]
       /\ PyStr.first_line out = "# Site"
       /\ PyStr.startswith out "# T" = false.
Proof.
  repeat split; try (vm_compute; reflexivity).
  eexists. repeat split; vm_compute; reflexivity.
Qed.

(** C1, amended.  A conversion of a fetched page that has an article
    container and an [h1] element returns one text: the heading line
    [# T], where [T] is the stripped text of the first [h1] of the page
    (on the example page, the article's own), an empty line, the
    line [**Source:** ] with the requested address, an empty line, the
    separator [---], an empty line, and then what the converter renders
    for the article container.  Any text the rendering contains, such as
    the paragraph text, therefore comes after those lines. *)
Theorem convert_output_layout
        (env : Env) (url include_images include_code : pyval) (st : state)
        (response : httpx_response) (article heading : Soup.PageElement) :
  httpx_get env 30 url = Return response ->
  raise_for_status env response = None ->
  Soup.find "article" [] (BeautifulSoup env (text response))
  = Some article ->
  Soup.find "h1" [] (BeautifulSoup env (text response)) = Some heading ->
  let title := PyStr.strip (Soup.get_text heading) in
  let rendered := md_convert env Server.md (tag_str env article) in
  Server._convert_medium_to_markdown env url include_images include_code st
  = (Return [mk_text "text" (convert_header title url ++ rendered)], st)
  /\ PyStr.first_line (convert_header title url ++ rendered)
     = PyStr.first_line ("# " ++ title)
  /\ forall body,
       PyStr.contains rendered body = true ->
       exists before after,
         convert_header title url ++ rendered
         = convert_header title url ++ before ++ body ++ after.
Proof.
  intros Hget Hstatus Harticle Hh1 title rendered.
  split; [|split].
  - rewrite ServerFacts.convert_run. cbv zeta.
    rewrite Hget, Hstatus, Harticle, Hh1.
    now rewrite convert_header_app.
  - rewrite convert_header_app.
    rewrite <- (PyStrFacts.app_assoc "# " title).
    apply first_line_before_nl.
  - intros body Hbody.
    destruct (PyStrFacts.contains_split _ _ Hbody) as (before & after & ->).
    exists before, after. reflexivity.
Qed.

Lemma convert_output_layout_witness :
  let url := PStr "https://medium.com/p/example" in
  let rendered := "# T" ++ PyStr.nl ++ PyStr.nl
                        ++ "hello world" ++ PyStr.nl ++ PyStr.nl in
  httpx_get Demo.env 30 url
  = Return (mk_httpx 200 "<article><h1>T</h1><p>hello world</p></article>")
  /\ Server._convert_medium_to_markdown Demo.env url (PBool true)
       (PBool true) Demo.fresh
     = (Return [mk_text "text" (convert_header "T" url ++ rendered)],
        Demo.fresh)
  /\ exists before after,
       convert_header "T" url ++ rendered
       = convert_header "T" url ++ before ++ "hello world" ++ after.
Proof.
  intros url rendered.
  destruct (convert_output_layout
              Demo.env url (PBool true) (PBool true) Demo.fresh
              (mk_httpx 200 (Demo.markup Demo.example_page))
              Demo.article_T (Soup.Tag "h1" [] [Demo.txt "T"]))
    as (Hrun & _ & Hbody); try (vm_compute; reflexivity).
  split; [reflexivity|]. split; [exact Hrun|].
  apply Hbody. vm_compute; reflexivity.
Defined.

(** C10.  A conversion of a fetched page that has an article container
    and no [h1] element succeeds, and the first line of its output is
    [# Untitled]; an info call on the same page gives the title
    [Unknown]. *)
Theorem convert_without_h1_is_untitled
        (env : Env) (url include_images include_code : pyval) (st : state)
        (response : httpx_response) (article : Soup.PageElement) :
  httpx_get env 30 url = Return response ->
  raise_for_status env response = None ->
  Soup.find "article" [] (BeautifulSoup env (text response))
  = Some article ->
  Soup.find "h1" [] (BeautifulSoup env (text response)) = None ->
  (exists out,
     Server._convert_medium_to_markdown env url include_images
                                        include_code st
     = (Return [mk_text "text" out], st)
     /\ PyStr.first_line out = "# Untitled")
  /\ exists info,
       Server._get_medium_article_info env url st
       = (Return [mk_text "text" (Json.dumps (Json.JDict info))], st)
       /\ Json.field info "title" = Some (Json.JStr "Unknown").
Proof.
  intros Hget Hstatus Harticle Hh1. split.
  - eexists. split.
    + rewrite ServerFacts.convert_run. cbv zeta.
      rewrite Hget, Hstatus, Harticle, Hh1. reflexivity.
    + reflexivity.
  - eexists. split.
    + rewrite ServerFacts.info_run. cbv zeta.
      rewrite Hget, Hstatus. reflexivity.
    + unfold Server.article_info. cbn [Json.field String.eqb Ascii.eqb
                                       Bool.eqb].
      now rewrite Hh1.
Qed.

Lemma convert_without_h1_is_untitled_witness :
  let url := PStr "https://medium.com/p/untitled" in
  Soup.find "h1" [] (BeautifulSoup Demo.env (Demo.markup Demo.untitled_page))
  = None
  /\ (exists out,
        Server._convert_medium_to_markdown Demo.env url (PBool true)
          (PBool true) Demo.fresh
        = (Return [mk_text "text" out], Demo.fresh)
        /\ PyStr.first_line out = "# Untitled")
  /\ exists info,
       Server._get_medium_article_info Demo.env url Demo.fresh
       = (Return [mk_text "text" (Json.dumps (Json.JDict info))],
          Demo.fresh)
       /\ Json.field info "title" = Some (Json.JStr "Unknown").
Proof.
  intros url. split; [vm_compute; reflexivity|].
  apply (convert_without_h1_is_untitled
           Demo.env url (PBool true) (PBool true) Demo.fresh
           (mk_httpx 200 (Demo.markup Demo.untitled_page))
           Demo.untitled_article);
    vm_compute; reflexivity.
Defined.

End ConvertProps.

(** ** Properties of the metadata extraction *)

Module InfoProps.
Import Notions.

Lemma estimate_is_token_count (env : Env) (html : string) :
  Server._estimate_word_count env html
  = Z.of_nat (whitespace_tokens
                (Soup.get_text (BeautifulSoup env html))).
Proof.
  unfold Server._estimate_word_count. now rewrite PyStrFacts.split_count.
Qed.

(** C6.  An info call on a fetched page returns a record whose
    [word_count] is the number of whitespace-delimited tokens of the
    flattened text of the page: the number of runs of non-whitespace
    characters in the concatenation of its visible strings.  The count is
    never negative, and it is 0 for a document without any node. *)
Theorem info_word_count_is_token_count
        (env : Env) (url : pyval) (st : state)
        (response : httpx_response) :
  httpx_get env 30 url = Return response ->
  raise_for_status env response = None ->
  let soup := BeautifulSoup env (text response) in
  let count := Z.of_nat (whitespace_tokens (Soup.get_text soup)) in
  (exists info,
     Server._get_medium_article_info env url st
     = (Return [mk_text "text" (Json.dumps (Json.JDict info))], st)
     /\ Json.field info "word_count" = Some (Json.JInt count))
  /\ (0 <= count)%Z
  /\ (Soup.descendants soup = [] -> count = 0%Z).
Proof.
  intros Hget Hstatus soup count. split; [|split].
  - exists (Server.article_info env url (text response)). split.
    + rewrite ServerFacts.info_run. cbv zeta.
      now rewrite Hget, Hstatus.
    + unfold Server.article_info.
      cbn [Json.field String.eqb Ascii.eqb Bool.eqb].
      now rewrite estimate_is_token_count.
  - apply Nat2Z.is_nonneg.
  - intros Hempty. unfold count, Soup.get_text. now rewrite Hempty.
Qed.

Lemma info_word_count_is_token_count_witness :
  Soup.descendants (BeautifulSoup Demo.env EmptyString) = []
  /\ (exists info,
        Server._get_medium_article_info
          Demo.env (PStr "https://medium.com/p/empty") Demo.fresh
        = (Return [mk_text "text" (Json.dumps (Json.JDict info))],
           Demo.fresh)
        /\ Json.field info "word_count" = Some (Json.JInt 0))
  /\ exists info,
       Server._get_medium_article_info
         Demo.env (PStr "https://medium.com/p/async") Demo.fresh
       = (Return [mk_text "text" (Json.dumps (Json.JDict info))],
          Demo.fresh)
       /\ Json.field info "word_count" = Some (Json.JInt 8).
Proof.
  split; [reflexivity|]. split.
  - apply (info_word_count_is_token_count
             Demo.env (PStr "https://medium.com/p/empty") Demo.fresh
             (mk_httpx 200 EmptyString)); reflexivity.
  - apply (info_word_count_is_token_count
             Demo.env (PStr "https://medium.com/p/async") Demo.fresh
             (mk_httpx 200 (Demo.markup Demo.async_page)));
      vm_compute; reflexivity.
Defined.

(** C7.  An info call on a fetched page does not raise: it returns the
    JSON text of the record.  A missing [h1], author link or
    reading-time node gives the string [Unknown] for [title], [author]
    or [reading_time]; a missing [time] element gives [null] for
    [publish_date].  Whether or not the [time] element is there, each of
    [title], [author] and [reading_time] is the stripped text of its
    node when the node exists, [url] is the requested address and
    [word_count] is the estimate. *)
Theorem info_missing_nodes_give_sentinels
        (env : Env) (url : pyval) (st : state)
        (response : httpx_response) :
  httpx_get env 30 url = Return response ->
  raise_for_status env response = None ->
  let soup := BeautifulSoup env (text response) in
  let info := Server.article_info env url (text response) in
  let stripped t := Some (Json.JStr (PyStr.strip (Soup.get_text t))) in
  Server._get_medium_article_info env url st
  = (Return [mk_text "text" (Json.dumps (Json.JDict info))], st)
  /\ (Soup.find "h1" [] soup = None ->
      Json.field info "title" = Some (Json.JStr "Unknown"))
  /\ (Soup.find "a" [("data-testid", "authorName")] soup = None ->
      Json.field info "author" = Some (Json.JStr "Unknown"))
  /\ (Soup.find "span" [("data-testid", "readingTime")] soup = None ->
      Json.field info "reading_time" = Some (Json.JStr "Unknown"))
  /\ (Soup.find "time" [] soup = None ->
      Json.field info "publish_date" = Some Json.JNull)
  /\ (forall t, Soup.find "h1" [] soup = Some t ->
                Json.field info "title" = stripped t)
  /\ (forall t, Soup.find "a" [("data-testid", "authorName")] soup = Some t ->
                Json.field info "author" = stripped t)
  /\ (forall t,
        Soup.find "span" [("data-testid", "readingTime")] soup = Some t ->
        Json.field info "reading_time" = stripped t)
  /\ Json.field info "url" = Some (to_json url)
  /\ Json.field info "word_count"
     = Some (Json.JInt (Server._estimate_word_count env (text response))).
Proof.
  intros Hget Hstatus soup info stripped.
  split.
  { rewrite ServerFacts.info_run. cbv zeta. now rewrite Hget, Hstatus. }
  unfold info, Server.article_info.
  cbn [Json.field String.eqb Ascii.eqb Bool.eqb]. fold soup.
  repeat split; try (intros H; now rewrite H);
    intros t H; now rewrite H.
Qed.

Lemma info_missing_nodes_give_sentinels_witness :
  let url := PStr "https://medium.com/p/async" in
  Soup.find "time" []
            (BeautifulSoup Demo.env (Demo.markup Demo.async_page)) = None
  /\ Server._get_medium_article_info Demo.env url Demo.fresh
     = (Return
          [mk_text "text"
             (Json.dumps
                (Json.JDict
                   [("title", Json.JStr "Async in Python");
                    ("author", Json.JStr "Ada");
                    ("reading_time", Json.JStr "5 min read");
                    ("publish_date", Json.JNull);
                    ("url", Json.JStr "https://medium.com/p/async");
                    ("word_count", Json.JInt 8)]))],
        Demo.fresh).
Proof.
  intros url. split; [vm_compute; reflexivity|].
  destruct (info_missing_nodes_give_sentinels
              Demo.env url Demo.fresh
              (mk_httpx 200 (Demo.markup Demo.async_page)))
    as (Hrun & _); [vm_compute; reflexivity | vm_compute; reflexivity |].
  exact Hrun.
Defined.

End InfoProps.

(** ** Properties of the dispatch boundary *)

Module DispatchProps.
Import Notions.




(** C8.  The two flags of a conversion do not reach its result: calls
    that differ in [include_images] and [include_code] only, or that
    leave them out, return the same payload and leave the same state.
    The converter is built with the same options in every call, and
    these options do not strip images. *)
Theorem convert_ignores_flags
        (env : Env) (url images code images' code' : pyval) (st : state) :
  Server._convert_medium_to_markdown env url images code st
  = Server._convert_medium_to_markdown env url images' code' st
  /\ Dispatch.call_tool env "convert_medium_to_markdown"
       (Some [("url", url); ("include_images", images);
              ("include_code", code)]) st
     = Dispatch.call_tool env "convert_medium_to_markdown"
         (Some [("url", url); ("include_images", images');
                ("include_code", code')]) st
  /\ Dispatch.call_tool env "convert_medium_to_markdown"
       (Some [("url", url); ("include_images", images);
              ("include_code", code)]) st
     = Dispatch.call_tool env "convert_medium_to_markdown"
         (Some [("url", url)]) st
  /\ ~ In "img" (strip Server.md).
Proof.
  repeat split; try reflexivity.
  cbn [strip Server.md In]. intros [H|[H|[]]]; discriminate.
Qed.

End DispatchProps.

(** ** The command line *)

Module CliProps.

(** When the port option carries a number other than 0, [main] prints the
    message and exits with status 1 without running the server. *)
Lemma main_port_nonzero (run : outcome unit) (args : Cli.Namespace) (p : Z) :
  Cli.port args = Some p -> p <> 0%Z ->
  snd (Cli.main run args) = Cli.SysExit 1
  /\ In (Cli.PrintStderr "HTTP mode not yet implemented")
        (fst (Cli.main run args))
  /\ ~ In Cli.RunStdioServer (fst (Cli.main run args)).
Proof.
  intros Hp Hnz. unfold Cli.main, Cli.port_truthy. rewrite Hp.
  destruct (Z.eqb_spec p 0) as [->|_]; [now elim Hnz|].
  cbn [negb fst snd].
  destruct (Cli.verbose args); cbn [List.app In]; repeat split; auto;
    intros H; repeat destruct H as [H|H]; try discriminate; exact H.
Qed.

(** C9 at the invocation [--port 0]: the namespace carries port 0, the
    test of the port is false, and [main] takes the stdio branch: it
    prints no message and builds and runs the stdio server, whatever
    that run then does. *)
Lemma main_port_zero_runs_stdio_server :
  forall run : outcome unit,
    let args := Cli.mk_args false (Some 0%Z) false in
    fst (Cli.main run args) = [Cli.RunStdioServer]
    /\ ~ In (Cli.PrintStderr "HTTP mode not yet implemented")
            (fst (Cli.main run args)).
Proof.
  intros run args. split; [reflexivity|].
  cbn. intros [H|[]]. discriminate H.
Qed.

End CliProps.

(** ** Keyword binding and the advertised schemas *)

Module BindingFacts.
Import Notions Shape.

Lemma existsb_eqb_In (k : string) (params : list string) :
  existsb (String.eqb k) params = true <-> In k params.
Proof.
  rewrite existsb_exists. split.
  - intros (x & Hx & He). apply String.eqb_eq in He. now subst.
  - intros H. exists k. split; [exact H | apply String.eqb_refl].
Qed.

Lemma unexpected_none (params : list string) (args : Dispatch.kwargs) :
  Dispatch.unexpected params args = None
  <-> forall k, In k (map fst args) -> In k params.
Proof.
  induction args as [|[k v] r IH]; cbn [Dispatch.unexpected map fst In].
  - split; [intros _ k [] | reflexivity].
  - destruct (existsb (String.eqb k) params) eqn:E.
    + rewrite IH. apply existsb_eqb_In in E. split.
      * intros H x [<-|Hx]; [exact E | now apply H].
      * intros H x Hx. apply H. now right.
    + split; [discriminate|]. intros H.
      assert (Hk : In k params) by (apply H; now left).
      apply existsb_eqb_In in Hk. congruence.
Qed.

(** The keyword reported is the first one of the call that is no
    parameter. *)
Lemma unexpected_some (params : list string) (args : Dispatch.kwargs)
      (k : string) :
  Dispatch.unexpected params args = Some k ->
  In k (map fst args) /\ ~ In k params.
Proof.
  induction args as [|[k' v] r IH]; cbn [Dispatch.unexpected map fst In];
    [discriminate|].
  destruct (existsb (String.eqb k') params) eqn:E.
  - intros H. destruct (IH H) as [Hin Hno]. split; [now right | exact Hno].
  - intros H; injection H as <-. split; [now left|].
    intros Hk. apply existsb_eqb_In in Hk. congruence.
Qed.

Lemma kw_get_app (args : Dispatch.kwargs) (p k : string) (d : pyval) :
  Dispatch.kw_get (args ++ [(p, d)])%list k
  = match Dispatch.kw_get args k with
    | Some v => Some v
    | None => if String.eqb p k then Some d else None
    end.
Proof.
  induction args as [|[k' v] r IH]; cbn [List.app Dispatch.kw_get];
    [reflexivity|].
  destruct (String.eqb k' k); [reflexivity | exact IH].
Qed.

Lemma unexpected_app (params : list string) (args : Dispatch.kwargs)
      (p : string) (d : pyval) :
  In p params ->
  Dispatch.unexpected params (args ++ [(p, d)])%list
  = Dispatch.unexpected params args.
Proof.
  intros Hp. induction args as [|[k v] r IH];
    cbn [List.app Dispatch.unexpected].
  - now rewrite (proj2 (existsb_eqb_In p params) Hp).
  - destruct (existsb (String.eqb k) params); [exact IH | reflexivity].
Qed.

Lemma call_tool_run (env : Env) (name : string)
      (arguments : option Dispatch.kwargs) (st : state) :
  Dispatch.call_tool env name arguments st
  = match Dispatch.dispatch env name (Dispatch.or_empty arguments) st with
    | (Return payload, st') => (Return payload, st')
    | (Raise e, st') =>
        if is_Exception e
        then (Return (error_payload (exn_msg e)),
              logged ERROR
                     ("Error in tool call " ++ name ++ ": " ++ exn_msg e) st')
        else (Raise e, st')
    end.
Proof.
  unfold Dispatch.call_tool, try_except.
  destruct (Dispatch.dispatch env name (Dispatch.or_empty arguments) st)
    as [[payload|e] st']; [|destruct (is_Exception e)]; reflexivity.
Qed.

End BindingFacts.

Module ToolsProps.
Import Notions Shape Tools.

(** X1.  A name that [list_tools] does not advertise is answered with the
    payload [Error: Unknown tool: ] and the name; the state gains one log
    record and nothing is fetched. *)
Theorem unadvertised_tool_is_unknown
        (env : Env) (name : string) (arguments : option Dispatch.kwargs)
        (st : state) :
  ~ In name (map tool_name list_tools) ->
  Dispatch.call_tool env name arguments st
  = (Return (error_payload ("Unknown tool: " ++ name)),
     logged ERROR
            ("Error in tool call " ++ name ++ ": Unknown tool: " ++ name) st).
Proof.
  intros Hname. rewrite BindingFacts.call_tool_run. unfold Dispatch.dispatch.
  cbn [map tool_name list_tools In] in Hname.
  destruct (String.eqb_spec name "search_medium_articles") as [->|_];
    [elim Hname; now left|].
  destruct (String.eqb_spec name "convert_medium_to_markdown") as [->|_];
    [elim Hname; right; now left|].
  destruct (String.eqb_spec name "get_medium_article_info") as [->|_];
    [elim Hname; right; right; now left|].
  reflexivity.
Qed.

Lemma unadvertised_tool_is_unknown_witness :
  ~ In "summarise" (map tool_name list_tools)
  /\ fst (Dispatch.call_tool Demo.env "summarise"
            (Some [("url", PStr "https://medium.com/p/example")]) Demo.fresh)
     = Return (error_payload "Unknown tool: summarise").
Proof.
  assert (H : ~ In "summarise" (map tool_name list_tools)).
  { cbn. intros [H|[H|[H|[]]]]; discriminate. }
  split; [exact H|].
  rewrite (unadvertised_tool_is_unknown Demo.env "summarise" _ Demo.fresh H).
  reflexivity.
Defined.

(** X2.  Arguments that conform to the schema of an advertised tool, with
    every key among the schema's properties and every required name
    present, are bound without error: the call is the handler applied to
    the required value and to the other values or the handler's
    defaults. *)
Theorem schema_conforming_arguments_bind
        (env : Env) (tool : Tool) (args : Dispatch.kwargs) (st : state) :
  In tool list_tools ->
  (forall k, In k (map fst args) ->
             In k (map fst (schema_properties (inputSchema tool)))) ->
  (forall r, In r (schema_required (inputSchema tool)) ->
             Dispatch.kw_get args r <> None) ->
  (tool_name tool = "search_medium_articles" ->
   exists query,
     Dispatch.kw_get args "query" = Some query
     /\ Dispatch.dispatch env (tool_name tool) args st
        = Server._search_medium_articles env query
            (Dispatch.optional args "tag" PNone)
            (Dispatch.optional args "limit" (PInt 10)) st)
  /\ (tool_name tool = "convert_medium_to_markdown" ->
      exists url,
        Dispatch.kw_get args "url" = Some url
        /\ Dispatch.dispatch env (tool_name tool) args st
           = Server._convert_medium_to_markdown env url
               (Dispatch.optional args "include_images" (PBool true))
               (Dispatch.optional args "include_code" (PBool true)) st)
  /\ (tool_name tool = "get_medium_article_info" ->
      exists url,
        Dispatch.kw_get args "url" = Some url
        /\ Dispatch.dispatch env (tool_name tool) args st
           = Server._get_medium_article_info env url st).
Proof.
  intros Htool Hkeys Hreq.
  cbn [list_tools In] in Htool.
  destruct Htool as [<-|[<-|[<-|[]]]];
    cbn [tool_name inputSchema schema_properties schema_required Json.field
         String.eqb Ascii.eqb Bool.eqb map fst flat_map List.app] in *;
    apply BindingFacts.unexpected_none in Hkeys;
    (split; [|split]); intros Hname; try discriminate.
  - destruct (Dispatch.kw_get args "query") as [query|] eqn:Hq;
      [|elim (Hreq "query"); [now left | exact Hq]].
    exists query. split; [reflexivity|].
    unfold Dispatch.dispatch. cbn [String.eqb Ascii.eqb Bool.eqb].
    unfold Dispatch.call_search, Dispatch.check_keywords, Dispatch.required.
    rewrite Hkeys, Hq. reflexivity.
  - destruct (Dispatch.kw_get args "url") as [url|] eqn:Hq;
      [|elim (Hreq "url"); [now left | exact Hq]].
    exists url. split; [reflexivity|].
    unfold Dispatch.dispatch. cbn [String.eqb Ascii.eqb Bool.eqb].
    unfold Dispatch.call_convert, Dispatch.check_keywords, Dispatch.required.
    rewrite Hkeys, Hq. reflexivity.
  - destruct (Dispatch.kw_get args "url") as [url|] eqn:Hq;
      [|elim (Hreq "url"); [now left | exact Hq]].
    exists url. split; [reflexivity|].
    unfold Dispatch.dispatch. cbn [String.eqb Ascii.eqb Bool.eqb].
    unfold Dispatch.call_info, Dispatch.check_keywords, Dispatch.required.
    rewrite Hkeys, Hq. reflexivity.
Qed.

Lemma schema_conforming_arguments_bind_witness :
  let tool := hd (mk_tool "" "" Json.JNull) list_tools in
  let args := [("query", PStr "python"); ("limit", PInt 3)] in
  In tool list_tools
  /\ exists query,
       Dispatch.kw_get args "query" = Some query
       /\ Dispatch.dispatch Demo.env "search_medium_articles" args Demo.fresh
          = Server._search_medium_articles Demo.env query PNone (PInt 3)
                                           Demo.fresh.
Proof.
  intros tool args.
  assert (Hin : In tool list_tools) by (now left).
  split; [exact Hin|].
  apply (proj1 (schema_conforming_arguments_bind
                  Demo.env tool args Demo.fresh Hin
                  ltac:(intros k [<-|[<-|[]]]; cbn; auto)
                  ltac:(intros r [<-|[]]; discriminate))).
  reflexivity.
Defined.

Lemma field_In (items : list (string * Json.value)) (key : string)
      (v : Json.value) :
  Json.field items key = Some v -> In (key, v) items.
Proof.
  induction items as [|[k x] r IH]; cbn [Json.field In]; [discriminate|].
  destruct (String.eqb_spec k key) as [->|_].
  - intros H; injection H as ->. now left.
  - intros H. right. now apply IH.
Qed.

(** X3.  The default a schema advertises for a parameter is the default
    the handler uses: leaving the parameter out of a call gives the same
    result and the same state as passing the advertised default. *)
Theorem advertised_defaults_are_effective
        (env : Env) (tool : Tool) (param : string) (d : pyval)
        (args : Dispatch.kwargs) (st : state) :
  In tool list_tools ->
  schema_default (inputSchema tool) param = Some (to_json d) ->
  Dispatch.kw_get args param = None ->
  Dispatch.call_tool env (tool_name tool)
                     (Some (args ++ [(param, d)])%list) st
  = Dispatch.call_tool env (tool_name tool) (Some args) st.
Proof.
  intros Htool Hdefault Hnone.
  assert (Hcases :
            (tool_name tool = "search_medium_articles"
             /\ param = "limit" /\ d = PInt 10)
            \/ (tool_name tool = "convert_medium_to_markdown"
                /\ (param = "include_images" \/ param = "include_code")
                /\ d = PBool true)).
  { unfold schema_default in Hdefault.
    destruct (Json.field (schema_properties (inputSchema tool)) param)
      as [[| | | | |items]|] eqn:Hfield; try discriminate Hdefault.
    apply field_In in Hfield.
    cbn [list_tools In] in Htool.
    destruct Htool as [<-|[<-|[<-|[]]]];
      cbn [tool_name inputSchema schema_properties Json.field
           String.eqb Ascii.eqb Bool.eqb In] in Hfield |- *;
      repeat (destruct Hfield as [Hfield|Hfield];
              [injection Hfield as <- <-;
               cbn [Json.field String.eqb Ascii.eqb Bool.eqb] in Hdefault;
               try discriminate Hdefault|]);
      try contradiction;
      destruct d; cbn [to_json] in Hdefault; try discriminate Hdefault;
      injection Hdefault as <-; auto. }
  destruct Hcases as [(-> & -> & ->)|(-> & [->| ->] & ->)];
    unfold Dispatch.call_tool, Dispatch.or_empty, Dispatch.dispatch;
    cbn [String.eqb Ascii.eqb Bool.eqb];
    unfold Dispatch.call_search, Dispatch.call_convert,
           Dispatch.check_keywords, Dispatch.required, Dispatch.optional;
    rewrite BindingFacts.unexpected_app by (cbn; auto);
    rewrite !BindingFacts.kw_get_app, Hnone;
    cbn [String.eqb Ascii.eqb Bool.eqb].
  - destruct (Dispatch.kw_get args "query"), (Dispatch.kw_get args "tag");
      reflexivity.
  - destruct (Dispatch.kw_get args "url"),
             (Dispatch.kw_get args "include_code"); reflexivity.
  - destruct (Dispatch.kw_get args "url"),
             (Dispatch.kw_get args "include_images"); reflexivity.
Qed.

Lemma advertised_defaults_are_effective_witness :
  let tool := hd (mk_tool "" "" Json.JNull) list_tools in
  schema_default (inputSchema tool) "limit" = Some (to_json (PInt 10))
  /\ Dispatch.call_tool Demo.env "search_medium_articles"
       (Some [("query", PStr "python"); ("limit", PInt 10)]) Demo.fresh
     = Dispatch.call_tool Demo.env "search_medium_articles"
         (Some [("query", PStr "python")]) Demo.fresh.
Proof.
  intros tool. split; [reflexivity|].
  apply (advertised_defaults_are_effective
           Demo.env tool "limit" (PInt 10) [("query", PStr "python")]
           Demo.fresh); [now left | reflexivity | reflexivity].
Defined.

(** The keyword reported is the first of the call that is no parameter,
    whatever follows it. *)
Lemma unexpected_first (params : list string) (good rest : Dispatch.kwargs)
      (k : string) (v : pyval) :
  (forall x, In x (map fst good) -> In x params) ->
  ~ In k params ->
  Dispatch.unexpected params (good ++ (k, v) :: rest)%list = Some k.
Proof.
  intros Hgood Hk. induction good as [|[x y] g IH];
    cbn [List.app Dispatch.unexpected].
  - destruct (existsb (String.eqb k) params) eqn:E; [|reflexivity].
    apply BindingFacts.existsb_eqb_In in E. contradiction.
  - rewrite (proj2 (BindingFacts.existsb_eqb_In x params)).
    + apply IH. intros z Hz. apply Hgood. now right.
    + apply Hgood. now left.
Qed.

(** X4.  A call of an advertised tool without the parameter its schema
    requires, and with no key outside the schema, fetches nothing: it is
    answered with the error text that names the missing parameter, and
    the state gains one log record. *)
Theorem missing_required_argument_is_reported
        (env : Env) (tool : Tool) (args : Dispatch.kwargs) (r : string)
        (st : state) :
  In tool list_tools ->
  (forall k, In k (map fst args) ->
             In k (map fst (schema_properties (inputSchema tool)))) ->
  In r (schema_required (inputSchema tool)) ->
  Dispatch.kw_get args r = None ->
  let msg := "MediumScraperMCPServer._" ++ tool_name tool
               ++ "() missing 1 required positional argument: '"
               ++ r ++ "'" in
  Dispatch.call_tool env (tool_name tool) (Some args) st
  = (Return (error_payload msg),
     logged ERROR ("Error in tool call " ++ tool_name tool ++ ": " ++ msg)
            st).
Proof.
  intros Htool Hkeys Hr Hnone msg. subst msg.
  rewrite BindingFacts.call_tool_run.
  apply BindingFacts.unexpected_none in Hkeys.
  cbn [list_tools In] in Htool.
  destruct Htool as [<-|[<-|[<-|[]]]];
    cbn [tool_name inputSchema schema_properties schema_required Json.field
         String.eqb Ascii.eqb Bool.eqb map fst flat_map List.app In] in *;
    destruct Hr as [<-|[]];
    unfold Dispatch.or_empty, Dispatch.dispatch;
    cbn [String.eqb Ascii.eqb Bool.eqb];
    unfold Dispatch.call_search, Dispatch.call_convert, Dispatch.call_info,
           Dispatch.check_keywords, Dispatch.required;
    rewrite Hkeys; unfold bind, lift; rewrite Hnone; reflexivity.
Qed.

Lemma missing_required_argument_is_reported_witness :
  let tool := hd (mk_tool "" "" Json.JNull) list_tools in
  In "query" (schema_required (inputSchema tool))
  /\ fst (Dispatch.call_tool Demo.env "search_medium_articles"
            (Some [("limit", PInt 3)]) Demo.fresh)
     = Return
         (error_payload
            ("MediumScraperMCPServer._search_medium_articles() missing 1 "
               ++ "required positional argument: 'query'")).
Proof.
  intros tool. split; [now left|].
  exact (f_equal fst
           (missing_required_argument_is_reported
              Demo.env tool [("limit", PInt 3)] "query" Demo.fresh
              ltac:(now left)
              ltac:(intros k [<-|[]]; cbn; auto)
              ltac:(now left) eq_refl)).
Defined.

(** X5.  A call of an advertised tool with a key that is no property of
    its schema fetches nothing, whatever else the call carries.  It is
    answered with the error text of the first such key: that the keyword
    is unexpected, or, for the key [self], which the bound method has
    bound already, that the argument got multiple values. *)
Theorem unexpected_argument_is_reported
        (env : Env) (tool : Tool) (good rest : Dispatch.kwargs)
        (k : string) (v : pyval) (st : state) :
  In tool list_tools ->
  (forall x, In x (map fst good) ->
             In x (map fst (schema_properties (inputSchema tool)))) ->
  ~ In k (map fst (schema_properties (inputSchema tool))) ->
  let msg := "MediumScraperMCPServer._" ++ tool_name tool
               ++ (if String.eqb k "self"
                   then "() got multiple values for argument 'self'"
                   else "() got an unexpected keyword argument '"
                          ++ k ++ "'") in
  Dispatch.call_tool env (tool_name tool)
                     (Some (good ++ (k, v) :: rest)%list) st
  = (Return (error_payload msg),
     logged ERROR ("Error in tool call " ++ tool_name tool ++ ": " ++ msg)
            st).
Proof.
  intros Htool Hgood Hk msg. subst msg.
  rewrite BindingFacts.call_tool_run.
  pose proof (unexpected_first _ good rest k v Hgood Hk) as Hun.
  cbn [list_tools In] in Htool.
  destruct Htool as [<-|[<-|[<-|[]]]];
    cbn [tool_name inputSchema schema_properties Json.field
         String.eqb Ascii.eqb Bool.eqb map fst] in *;
    unfold Dispatch.or_empty, Dispatch.dispatch;
    cbn [String.eqb Ascii.eqb Bool.eqb];
    unfold Dispatch.call_search, Dispatch.call_convert, Dispatch.call_info,
           Dispatch.check_keywords;
    rewrite Hun; unfold bind, lift;
    destruct (String.eqb k "self"); reflexivity.
Qed.

Lemma unexpected_argument_is_reported_witness :
  let tool := nth 2 list_tools (mk_tool "" "" Json.JNull) in
  ~ In "urls" (map fst (schema_properties (inputSchema tool)))
  /\ fst (Dispatch.call_tool Demo.env "get_medium_article_info"
            (Some [("urls", PStr "https://medium.com/p/async")]) Demo.fresh)
     = Return
         (error_payload
            ("MediumScraperMCPServer._get_medium_article_info() got an "
               ++ "unexpected keyword argument 'urls'"))
  /\ fst (Dispatch.call_tool Demo.env "get_medium_article_info"
            (Some [("url", PStr "https://medium.com/p/async");
                   ("self", PNone)]) Demo.fresh)
     = Return
         (error_payload
            ("MediumScraperMCPServer._get_medium_article_info() got "
               ++ "multiple values for argument 'self'")).
Proof.
  intros tool.
  assert (H : ~ In "urls" (map fst (schema_properties (inputSchema tool)))).
  { cbn. intros [H|[]]; discriminate. }
  assert (Hself :
            ~ In "self" (map fst (schema_properties (inputSchema tool)))).
  { cbn. intros [Hs|[]]; discriminate. }
  split; [exact H|]. split.
  - exact (f_equal fst
             (unexpected_argument_is_reported
                Demo.env tool [] [] "urls" (PStr "https://medium.com/p/async")
                Demo.fresh ltac:(right; right; now left)
                ltac:(intros x []) H)).
  - exact (f_equal fst
             (unexpected_argument_is_reported
                Demo.env tool [("url", PStr "https://medium.com/p/async")] []
                "self" PNone Demo.fresh ltac:(right; right; now left)
                ltac:(intros x [<-|[]]; now left) Hself)).
Defined.

End ToolsProps.

(** ** The state a call leaves behind *)

Module StateProps.
Import Notions Shape Lifecycle.

Lemma search_effect
      (env : Env) (query tag limit : pyval) (st : state) :
  let r := Server._search_medium_articles env query tag limit st in
  session (snd r) = Some (session_in st)
  /\ match fst r with
     | Return _ => log (snd r) = log st
     | Raise e =>
         log (snd r)
         = if is_Exception e
           then (log st
                   ++ [(ERROR,
                        ("Error searching Medium articles: "
                           ++ exn_msg e)%string)])%list
           else log st
     end.
Proof.
  cbv zeta. rewrite ServerFacts.search_run. cbv zeta.
  destruct (aiohttp_get env _ _ _) as [response|e].
  - destruct (negb (status response =? 200)%Z).
    + cbn [fst snd logged with_session session log is_Exception Exception].
      split; reflexivity.
    + destruct (Server.slice_stop _ limit) as [elements|e]; cbn [fst snd];
        [|destruct (is_Exception e)];
        cbn [logged with_session session log]; split; reflexivity.
  - cbn [fst snd]. destruct (is_Exception e);
      cbn [logged with_session session log]; split; reflexivity.
Qed.

(** X6.  A search leaves the server with an open session whether it
    returns or raises: the session that was open before, else a new one
    with the total timeout 30.  A search that returns logs nothing.  A
    search that raises [e] logs one record, at level ERROR, with the text
    [Error searching Medium articles: ] and the message of [e], when the
    class of [e] derives from [Exception]; it logs nothing when the class
    does not (a cancellation, for one). *)
Theorem search_opens_session_and_logs_failure
        (env : Env) (query tag limit : pyval) (st : state) :
  let r := Server._search_medium_articles env query tag limit st in
  (forall s, session st = Some s -> session (snd r) = Some s)
  /\ (session st = None -> session (snd r) = Some (mk_session 30))
  /\ match fst r with
     | Return _ => log (snd r) = log st
     | Raise e =>
         (is_Exception e = true ->
          log (snd r)
          = (log st
               ++ [(ERROR,
                    ("Error searching Medium articles: "
                       ++ exn_msg e)%string)])%list)
         /\ (is_Exception e = false -> log (snd r) = log st)
     end.
Proof.
  cbv zeta.
  destruct (search_effect env query tag limit st) as [Hs Hl].
  cbv zeta in Hs, Hl. rewrite Hs. unfold session_in.
  split; [|split].
  - intros s H. now rewrite H.
  - intros H. now rewrite H.
  - destruct (fst (Server._search_medium_articles env query tag limit st))
      as [p|e]; [exact Hl|].
    rewrite Hl. split; intros ->; reflexivity.
Qed.

Lemma page_call_effect
      (env : Env) (url include_images include_code : pyval) (st : state) :
  let c := Server._convert_medium_to_markdown env url include_images
                                              include_code st in
  let i := Server._get_medium_article_info env url st in
  match fst c with
  | Return _ => snd c = st
  | Raise e =>
      snd c
      = if is_Exception e
        then logged ERROR ("Error converting Medium article: " ++ exn_msg e)
                    st
        else st
  end
  /\ match fst i with
     | Return _ => snd i = st
     | Raise e =>
         snd i
         = if is_Exception e
           then logged ERROR ("Error getting article info: " ++ exn_msg e) st
           else st
     end.
Proof.
  cbv zeta. rewrite ServerFacts.convert_run, ServerFacts.info_run. cbv zeta.
  destruct (httpx_get env 30 url) as [response|e];
    [destruct (raise_for_status env response) as [e|];
     [|destruct (Soup.find "article" [] _)]|];
    cbn [fst snd is_Exception Exception]; split; reflexivity.
Qed.

(** X7.  A conversion and an info call never touch the session.  When
    they return, the state is the one they started in.  When they raise
    [e] and the class of [e] derives from [Exception], the only change is
    one log record at level ERROR, with the text
    [Error converting Medium article: ] or [Error getting article info: ]
    and the message of [e]; when the class does not derive from
    [Exception], the state is unchanged. *)
Theorem convert_and_info_keep_session
        (env : Env) (url include_images include_code : pyval) (st : state) :
  let c := Server._convert_medium_to_markdown env url include_images
                                              include_code st in
  let i := Server._get_medium_article_info env url st in
  session (snd c) = session st
  /\ session (snd i) = session st
  /\ match fst c with
     | Return _ => snd c = st
     | Raise e =>
         (is_Exception e = true ->
          snd c
          = logged ERROR ("Error converting Medium article: " ++ exn_msg e)
                   st)
         /\ (is_Exception e = false -> snd c = st)
     end
  /\ match fst i with
     | Return _ => snd i = st
     | Raise e =>
         (is_Exception e = true ->
          snd i
          = logged ERROR ("Error getting article info: " ++ exn_msg e) st)
         /\ (is_Exception e = false -> snd i = st)
     end.
Proof.
  cbv zeta.
  destruct (page_call_effect env url include_images include_code st)
    as [Hc Hi]. cbv zeta in Hc, Hi.
  split; [|split; [|split]].
  - destruct (fst (Server._convert_medium_to_markdown env url _ _ st))
      as [p|e]; rewrite Hc; [|destruct (is_Exception e)]; reflexivity.
  - destruct (fst (Server._get_medium_article_info env url st))
      as [p|e]; rewrite Hi; [|destruct (is_Exception e)]; reflexivity.
  - destruct (fst (Server._convert_medium_to_markdown env url _ _ st))
      as [p|e]; [exact Hc|].
    rewrite Hc. split; intros ->; reflexivity.
  - destruct (fst (Server._get_medium_article_info env url st))
      as [p|e]; [exact Hi|].
    rewrite Hi. split; intros ->; reflexivity.
Qed.

Lemma dispatch_effect (env : Env) (name : string) (args : Dispatch.kwargs)
      (st : state) :
  let r := Dispatch.dispatch env name args st in
  (session (snd r) = session st
   \/ (name = "search_medium_articles"
       /\ session (snd r) = Some (session_in st)))
  /\ match fst r with
     | Return _ => log (snd r) = log st
     | Raise e =>
         if is_Exception e
         then log (snd r) = log st
              \/ exists m, log (snd r) = (log st ++ [(ERROR, m)])%list
         else log (snd r) = log st
     end.
Proof.
  cbv zeta. unfold Dispatch.dispatch.
  destruct (String.eqb_spec name "search_medium_articles") as [->|_];
    [|destruct (String.eqb_spec name "convert_medium_to_markdown")
        as [->|_];
      [|destruct (String.eqb_spec name "get_medium_article_info")
          as [->|_]]].
  - unfold Dispatch.call_search, Dispatch.check_keywords, Dispatch.required,
           bind, lift.
    destruct (Dispatch.unexpected _ args) as [k|]; cbn [fst snd];
      [destruct (String.eqb k "self"); cbn; auto|].
    destruct (Dispatch.kw_get args "query") as [query|]; cbn [fst snd];
      [|cbn; auto].
    pose proof (search_effect
                  env query (Dispatch.optional args "tag" PNone)
                  (Dispatch.optional args "limit" (PInt 10)) st)
      as (Hs & Hl).
    destruct (Server._search_medium_articles env query _ _ st) as [[p|e] st'];
      cbn [fst snd] in *; [split; eauto|].
    split; [eauto|]. destruct (is_Exception e); eauto.
  - unfold Dispatch.call_convert, Dispatch.check_keywords, Dispatch.required,
           bind, lift.
    destruct (Dispatch.unexpected _ args) as [k|]; cbn [fst snd];
      [destruct (String.eqb k "self"); cbn; auto|].
    destruct (Dispatch.kw_get args "url") as [url|]; cbn [fst snd];
      [|cbn; auto].
    pose proof (page_call_effect
                  env url
                  (Dispatch.optional args "include_images" (PBool true))
                  (Dispatch.optional args "include_code" (PBool true)) st)
      as (Hl & _).
    destruct (Server._convert_medium_to_markdown env url _ _ st)
      as [[p|e] st']; cbn [fst snd] in *; subst st';
      [|destruct (is_Exception e)];
      cbn [logged session log]; split; eauto.
  - unfold Dispatch.call_info, Dispatch.check_keywords, Dispatch.required,
           bind, lift.
    destruct (Dispatch.unexpected _ args) as [k|]; cbn [fst snd];
      [destruct (String.eqb k "self"); cbn; auto|].
    destruct (Dispatch.kw_get args "url") as [url|]; cbn [fst snd];
      [|cbn; auto].
    pose proof (page_call_effect env url PNone PNone st) as (_ & Hl).
    destruct (Server._get_medium_article_info env url st) as [[p|e] st'];
      cbn [fst snd] in *; subst st'; [|destruct (is_Exception e)];
      cbn [logged session log]; split; eauto.
  - unfold raise. cbn. auto.
Qed.

Lemma call_tool_session
      (env : Env) (name : string) (arguments : option Dispatch.kwargs)
      (st : state) :
  let st' := snd (Dispatch.call_tool env name arguments st) in
  session st' = session st
  \/ (name = "search_medium_articles"
      /\ session st' = Some (session_in st)).
Proof.
  cbv zeta. rewrite BindingFacts.call_tool_run.
  pose proof (dispatch_effect env name (Dispatch.or_empty arguments) st)
    as [Hs _]. cbv zeta in Hs.
  destruct (Dispatch.dispatch env name _ st) as [[p|e] st1];
    [|destruct (is_Exception e)];
    cbn [fst snd logged session] in *; exact Hs.
Qed.

(** X8.  A tool call never closes or replaces an open session, and only
    the search tool can open one: after a call the session is the one
    from before, or, when there was none, possibly a new one with the
    total timeout 30. *)
Theorem tool_call_keeps_open_session
        (env : Env) (name : string) (arguments : option Dispatch.kwargs)
        (st : state) :
  let st' := snd (Dispatch.call_tool env name arguments st) in
  (forall s, session st = Some s -> session st' = Some s)
  /\ (name <> "search_medium_articles" -> session st' = session st)
  /\ (session st' = session st \/ session st' = Some (mk_session 30)).
Proof.
  cbv zeta.
  destruct (call_tool_session env name arguments st) as [Hs|[Hname Hs]];
    cbv zeta in Hs; rewrite Hs.
  - repeat split; auto.
  - unfold session_in. split; [|split].
    + intros s H. now rewrite H.
    + intros H. contradiction.
    + destruct (session st); auto.
Qed.

(** X9.  A tool call whose handler returns passes the payload on and logs
    nothing.  A tool call whose handler raises [e] with a class that
    derives from [Exception] returns [Error: ] and the message, and adds
    at most one record of the handler and then the record
    [Error in tool call ], the name, [: ] and the message of [e], which
    is the last.  When the class of [e] does not derive from [Exception],
    the call raises [e] and logs nothing. *)
Theorem tool_call_logs_only_failures
        (env : Env) (name : string) (arguments : option Dispatch.kwargs)
        (st : state) :
  let r := Dispatch.call_tool env name arguments st in
  match fst (Dispatch.dispatch env name (Dispatch.or_empty arguments) st) with
  | Return payload => fst r = Return payload /\ log (snd r) = log st
  | Raise e =>
      (is_Exception e = true ->
       fst r = Return (error_payload (exn_msg e))
       /\ exists earlier,
            log (snd r)
            = (log st ++ earlier
                 ++ [(ERROR,
                      ("Error in tool call " ++ name ++ ": "
                         ++ exn_msg e)%string)])%list
            /\ length earlier <= 1)
      /\ (is_Exception e = false ->
          fst r = Raise e /\ log (snd r) = log st)
  end.
Proof.
  cbv zeta. rewrite BindingFacts.call_tool_run.
  pose proof (dispatch_effect env name (Dispatch.or_empty arguments) st)
    as [_ Hl]. cbv zeta in Hl.
  destruct (Dispatch.dispatch env name _ st) as [[p|e] st1];
    cbn [fst snd] in *.
  - auto.
  - destruct (is_Exception e); split; intros He; try discriminate He;
      cbn [fst snd logged log].
    + split; [reflexivity|].
      destruct Hl as [Hl|[m Hl]]; rewrite Hl.
      * exists []. split; [reflexivity | cbn; lia].
      * exists [(ERROR, m)].
        split; [now rewrite <- List.app_assoc | cbn; lia].
    + split; [reflexivity | exact Hl].
Qed.

Lemma step_session (env : Env) (st : state) (r : request) :
  session_ok st -> session_ok (step env st r).
Proof.
  intros Hok. destruct r as [name arguments|]; cbn [step].
  - destruct (call_tool_session env name arguments st) as [Hs|[_ Hs]];
      cbv zeta in Hs; unfold session_ok; rewrite Hs.
    + exact Hok.
    + right. unfold session_in.
      destruct Hok as [->| ->]; reflexivity.
  - left. unfold close. destruct (session st) eqn:E; cbn [snd session];
      [reflexivity | exact E].
Qed.

(** X10.  Over any sequence of tool calls and closes, a server that
    starts without a session, or with one of total timeout 30, never
    holds a session with another timeout. *)
Theorem served_session_has_timeout_30
        (env : Env) (requests : list request) (st : state) :
  session_ok st -> session_ok (serve env requests st).
Proof.
  revert st. induction requests as [|r rest IH]; intros st Hok.
  - exact Hok.
  - cbn [serve fold_left]. apply IH. now apply step_session.
Qed.

Lemma served_session_has_timeout_30_witness :
  session_ok Demo.fresh
  /\ session_ok
       (serve Demo.env
          [ToolCall "search_medium_articles" (Some [("query", PStr "python")]);
           Close;
           ToolCall "get_medium_article_info"
                    (Some [("url", PStr "https://medium.com/p/async")]);
           ToolCall "search_medium_articles" (Some [("query", PStr "rust")])]
          Demo.fresh).
Proof.
  assert (H : session_ok Demo.fresh) by (left; reflexivity).
  split; [exact H|].
  apply (served_session_has_timeout_30 Demo.env _ Demo.fresh H).
Defined.

(** X12.  [close] leaves the server without a session and keeps the log;
    closing again changes nothing; and a search after a close opens a new
    session with the total timeout 30. *)
Theorem close_forgets_session
        (env : Env) (query tag limit : pyval) (st : state) :
  let closed := snd (close st) in
  fst (close st) = Return tt
  /\ session closed = None
  /\ log closed = log st
  /\ snd (close closed) = closed
  /\ session (snd (Server._search_medium_articles env query tag limit closed))
     = Some (mk_session 30).
Proof.
  cbv zeta.
  assert (Hc : snd (close st) = mk_state None (log st))
    by (unfold close; destruct st as [[s|] lg]; reflexivity).
  rewrite Hc. repeat split.
  - unfold close. destruct (session st); reflexivity.
  - apply (search_effect env query tag limit (mk_state None (log st))).
Qed.

End StateProps.

(** ** More on the search operation *)

Module SearchMore.
Import Notions Shape.

Lemma summaries_app (a b : list Soup.PageElement) :
  summaries (a ++ b) = (summaries a ++ summaries b)%list.
Proof. unfold summaries. apply flat_map_app. Qed.

Lemma firstn_le_split {A} (n m : nat) (l : list A) :
  n <= m -> firstn m l = (firstn n l ++ firstn (m - n) (skipn n l))%list.
Proof.
  revert m l. induction n as [|n IH]; intros m l Hle.
  - now rewrite Nat.sub_0_r.
  - destruct m as [|m]; [lia|]. destruct l as [|x l]; cbn [firstn skipn].
    + now rewrite firstn_nil.
    + cbn [Nat.sub List.app]. f_equal. apply IH. lia.
Qed.

(** The run of a search with an integer limit that is not negative, on a
    page fetched with status 200. *)
Lemma search_run_limit (env : Env) (query tag : pyval) (n : Z) (st : state)
      (response : aio_response) :
  (0 <= n)%Z ->
  aiohttp_get env (session_in st) Server.search_url
              (Server.search_params query tag) = Return response ->
  status response = 200%Z ->
  Server._search_medium_articles env query tag (PInt n) st
  = (Return
       [mk_text "text"
          (Json.dumps
             (Json.JList
                (summaries
                   (firstn (Z.to_nat n) (post_previews env response)))))],
     with_session st).
Proof.
  intros Hn Hget Hstatus.
  rewrite ServerFacts.search_run. cbv zeta. rewrite Hget, Hstatus.
  cbn [Z.eqb Pos.eqb negb Server.slice_stop].
  destruct (Z.ltb_spec n 0); [lia | reflexivity].
Qed.

(** X13.  Raising the limit only adds results at the end: for limits
    [0 <= n <= m] on the same fetched page, the summaries returned with
    limit [n] are an initial segment of those returned with limit [m]. *)
Theorem larger_limit_extends_results
        (env : Env) (query tag : pyval) (n m : Z) (st : state)
        (response : aio_response) :
  (0 <= n <= m)%Z ->
  aiohttp_get env (session_in st) Server.search_url
              (Server.search_params query tag) = Return response ->
  status response = 200%Z ->
  exists small large,
    Server._search_medium_articles env query tag (PInt n) st
    = (Return [mk_text "text" (Json.dumps (Json.JList small))],
       with_session st)
    /\ Server._search_medium_articles env query tag (PInt m) st
       = (Return [mk_text "text" (Json.dumps (Json.JList large))],
          with_session st)
    /\ initial_segment small large.
Proof.
  intros [Hn Hm] Hget Hstatus.
  exists (summaries (firstn (Z.to_nat n) (post_previews env response))),
         (summaries (firstn (Z.to_nat m) (post_previews env response))).
  split; [|split].
  - now apply search_run_limit.
  - apply search_run_limit; [lia | assumption | assumption].
  - rewrite (firstn_le_split (Z.to_nat n) (Z.to_nat m)) by lia.
    rewrite summaries_app. eexists. reflexivity.
Qed.

Lemma larger_limit_extends_results_witness :
  (0 <= 2 <= 4)%Z
  /\ exists small large,
       Server._search_medium_articles Demo.env (PStr "python") PNone
                                      (PInt 2) Demo.fresh
       = (Return [mk_text "text" (Json.dumps (Json.JList small))],
          with_session Demo.fresh)
       /\ Server._search_medium_articles Demo.env (PStr "python") PNone
                                         (PInt 4) Demo.fresh
          = (Return [mk_text "text" (Json.dumps (Json.JList large))],
             with_session Demo.fresh)
       /\ initial_segment small large.
Proof.
  split; [lia|].
  apply (larger_limit_extends_results
           Demo.env (PStr "python") PNone 2 4 Demo.fresh
           (mk_aio 200 (Demo.markup Demo.python_results)));
    [lia | reflexivity | reflexivity].
Defined.

(** X14.  A negative limit does not cap the results: the slice
    [article_elements[:limit]] with [limit = -k] drops the last [k]
    containers, so the search behaves as with the limit
    [max 0 (number of containers - k)]. *)
Theorem negative_limit_drops_last_containers
        (env : Env) (query tag : pyval) (k : Z) (st : state)
        (response : aio_response) :
  (0 < k)%Z ->
  aiohttp_get env (session_in st) Server.search_url
              (Server.search_params query tag) = Return response ->
  status response = 200%Z ->
  Server._search_medium_articles env query tag (PInt (- k)) st
  = Server._search_medium_articles env query tag
      (PInt (Z.of_nat (length (post_previews env response) - Z.to_nat k))) st.
Proof.
  intros Hk Hget Hstatus.
  rewrite (search_run_limit env query tag _ st response
             (Nat2Z.is_nonneg _) Hget Hstatus).
  rewrite ServerFacts.search_run. cbv zeta. rewrite Hget, Hstatus.
  cbn [Z.eqb Pos.eqb negb Server.slice_stop].
  destruct (Z.ltb_spec (- k) 0); [|lia].
  rewrite Z.opp_involutive, Nat2Z.id. reflexivity.
Qed.

Lemma negative_limit_drops_last_containers_witness :
  (0 < 1)%Z
  /\ length (post_previews Demo.env
               (mk_aio 200 (Demo.markup Demo.python_results))) = 5
  /\ Server._search_medium_articles Demo.env (PStr "python") PNone
                                    (PInt (-1)) Demo.fresh
     = Server._search_medium_articles Demo.env (PStr "python") PNone
                                      (PInt 4) Demo.fresh.
Proof.
  split; [lia|]. split; [vm_compute; reflexivity|].
  apply (negative_limit_drops_last_containers
           Demo.env (PStr "python") PNone 1 Demo.fresh
           (mk_aio 200 (Demo.markup Demo.python_results)));
    [lia | reflexivity | reflexivity].
Defined.

(** X15.  A limit of [None], or an integer limit that is at least the
    number of post-preview containers, caps nothing: the search returns
    the summaries of all the containers. *)
Theorem large_or_absent_limit_takes_all
        (env : Env) (query tag : pyval) (n : Z) (st : state)
        (response : aio_response) :
  (Z.of_nat (length (post_previews env response)) <= n)%Z ->
  aiohttp_get env (session_in st) Server.search_url
              (Server.search_params query tag) = Return response ->
  status response = 200%Z ->
  let all :=
    (Return
       [mk_text "text"
          (Json.dumps
             (Json.JList (summaries (post_previews env response))))],
     with_session st) in
  Server._search_medium_articles env query tag (PInt n) st = all
  /\ Server._search_medium_articles env query tag PNone st = all.
Proof.
  intros Hn Hget Hstatus all. subst all. split.
  - rewrite (search_run_limit env query tag n st response) by (auto; lia).
    rewrite firstn_all2 by lia. reflexivity.
  - rewrite ServerFacts.search_run. cbv zeta. rewrite Hget, Hstatus.
    reflexivity.
Qed.

Lemma large_or_absent_limit_takes_all_witness :
  (Z.of_nat (length (post_previews Demo.env
                       (mk_aio 200 (Demo.markup Demo.python_results))))
   <= 10)%Z
  /\ Server._search_medium_articles Demo.env (PStr "python") PNone
                                    (PInt 10) Demo.fresh
     = Server._search_medium_articles Demo.env (PStr "python") PNone
                                      PNone Demo.fresh.
Proof.
  assert (H : (Z.of_nat (length (post_previews Demo.env
                                   (mk_aio 200
                                      (Demo.markup Demo.python_results))))
               <= 10)%Z) by (vm_compute; discriminate).
  split; [exact H|].
  destruct (large_or_absent_limit_takes_all
              Demo.env (PStr "python") PNone 10 Demo.fresh
              (mk_aio 200 (Demo.markup Demo.python_results))
              H eq_refl eq_refl) as [H1 H2].
  now rewrite H1, H2.
Defined.

(** X16.  The tag is not used to filter locally: it reaches the result
    only through the parameters of the fetch.  Two searches whose fetches
    answer alike return alike; and a tag that is not truthy ([None], the
    empty string, [0], [False]) is not sent at all. *)
Theorem tag_only_reaches_fetch
        (env : Env) (query tag tag' limit : pyval) (st : state) :
  (aiohttp_get env (session_in st) Server.search_url
               (Server.search_params query tag)
   = aiohttp_get env (session_in st) Server.search_url
                 (Server.search_params query tag') ->
   Server._search_medium_articles env query tag limit st
   = Server._search_medium_articles env query tag' limit st)
  /\ (truthy tag = false ->
      Server.search_params query tag = [("q", query)]
      /\ Server._search_medium_articles env query tag limit st
         = Server._search_medium_articles env query PNone limit st).
Proof.
  split.
  - intros H. rewrite !ServerFacts.search_run. cbv zeta. now rewrite H.
  - intros H.
    assert (Hp : Server.search_params query tag = [("q", query)])
      by (unfold Server.search_params; now rewrite H).
    split; [exact Hp|].
    rewrite !ServerFacts.search_run. cbv zeta. rewrite Hp. reflexivity.
Qed.

Lemma tag_only_reaches_fetch_witness :
  truthy (PStr "") = false
  /\ Server._search_medium_articles Demo.env (PStr "python") (PStr "")
                                    (PInt 3) Demo.fresh
     = Server._search_medium_articles Demo.env (PStr "python") PNone
                                      (PInt 3) Demo.fresh.
Proof.
  split; [reflexivity|].
  apply (proj2 (tag_only_reaches_fetch
                  Demo.env (PStr "python") (PStr "") PNone (PInt 3)
                  Demo.fresh)).
  reflexivity.
Defined.

(** X17.  Only the status 200 counts as success for a search: any other
    status, other 2xx ones included, makes the search raise
    [Search failed: ] and the status before the page is parsed, and the
    tool call answers with that text after [Error: ]. *)
Theorem search_fails_on_other_status
        (env : Env) (query tag limit : pyval) (st : state)
        (response : aio_response) :
  aiohttp_get env (session_in st) Server.search_url
              (Server.search_params query tag) = Return response ->
  status response <> 200%Z ->
  let msg := "Search failed: " ++ PyStr.str_int (status response) in
  Server._search_medium_articles env query tag limit st
  = (Raise (Exception msg),
     logged ERROR ("Error searching Medium articles: " ++ msg)
            (with_session st))
  /\ fst (Dispatch.call_tool env "search_medium_articles"
            (Some [("query", query); ("tag", tag); ("limit", limit)]) st)
     = Return (error_payload msg).
Proof.
  intros Hget Hstatus msg.
  assert (Hrun : Server._search_medium_articles env query tag limit st
                 = (Raise (Exception msg),
                    logged ERROR ("Error searching Medium articles: " ++ msg)
                           (with_session st))).
  { rewrite ServerFacts.search_run. cbv zeta. rewrite Hget.
    destruct (Z.eqb_spec (status response) 200); [contradiction|].
    reflexivity. }
  split; [exact Hrun|].
  rewrite BindingFacts.call_tool_run.
  unfold Dispatch.or_empty, Dispatch.dispatch.
  cbn [String.eqb Ascii.eqb Bool.eqb].
  unfold Dispatch.call_search, Dispatch.check_keywords, Dispatch.required,
         Dispatch.optional.
  cbn [Dispatch.unexpected Dispatch.kw_get existsb String.eqb Ascii.eqb
       Bool.eqb orb].
  unfold bind at 1 2, lift. rewrite Hrun. reflexivity.
Qed.

Lemma search_fails_on_other_status_witness :
  aiohttp_get Demo.env (session_in Demo.fresh) Server.search_url
              (Server.search_params (PStr "golang") PNone)
  = Return (mk_aio 503 "")
  /\ fst (Dispatch.call_tool Demo.env "search_medium_articles"
            (Some [("query", PStr "golang"); ("tag", PNone);
                   ("limit", PInt 5)]) Demo.fresh)
     = Return (error_payload "Search failed: 503").
Proof.
  split; [reflexivity|].
  apply (proj2 (search_fails_on_other_status
                  Demo.env (PStr "golang") PNone (PInt 5) Demo.fresh
                  (mk_aio 503 "") eq_refl ltac:(discriminate))).
Defined.

Lemma lstrip_no_leading (s : string) :
  leading_space (PyStr.lstrip s) = false.
Proof.
  induction s as [|c r IH]; cbn [PyStr.lstrip]; [reflexivity|].
  destruct (PyStr.isspace c) eqn:E; [exact IH|].
  cbn [leading_space]. exact E.
Qed.

Lemma rstrip_keeps_leading (s : string) :
  leading_space s = false -> leading_space (PyStr.rstrip s) = false.
Proof.
  destruct s as [|c r]; cbn [PyStr.rstrip leading_space]; [reflexivity|].
  intros E. rewrite E. cbn [andb leading_space]. exact E.
Qed.

Lemma rstrip_no_trailing (s : string) :
  trailing_space (PyStr.rstrip s) = false.
Proof.
  induction s as [|c r IH]; cbn [PyStr.rstrip]; [reflexivity|].
  destruct (PyStr.isspace c) eqn:E; destruct (PyStr.rstrip r) eqn:R;
    cbn [andb PyStr.is_empty trailing_space]; try reflexivity;
    try exact E; exact IH.
Qed.

Lemma strip_trimmed (s : string) : trimmed (PyStr.strip s).
Proof.
  unfold trimmed, PyStr.strip. split.
  - apply rstrip_keeps_leading, lstrip_no_leading.
  - apply rstrip_no_trailing.
Qed.

(** X18.  Every summary a search returns is a JSON object with exactly
    the keys [title], [url], [author] and [snippet], in this order, each
    with a string value; and neither the title nor the author starts or
    ends with whitespace. *)
Theorem summaries_are_trimmed_records
        (env : Env) (query tag limit : pyval) (st st' : state)
        (payload : list TextContent) :
  Server._search_medium_articles env query tag limit st
  = (Return payload, st') ->
  exists list,
    payload = [mk_text "text" (Json.dumps (Json.JList list))]
    /\ Forall
         (fun s =>
            keys s = ["title"; "url"; "author"; "snippet"]
            /\ exists title url author snippet,
                 s = Json.JDict [("title", Json.JStr title);
                                 ("url", Json.JStr url);
                                 ("author", Json.JStr author);
                                 ("snippet", Json.JStr snippet)]
                 /\ trimmed title /\ trimmed author)
         list.
Proof.
  intros Hrun.
  destruct (ServerFacts.search_returns_inv env _ _ _ _ _ _ Hrun)
    as (response & elements & _ & _ & _ & ->).
  exists (summaries elements). split; [reflexivity|].
  apply Forall_forall. intros s Hs.
  destruct (SearchFacts.In_summaries _ _ Hs) as (c & _ & Hsum).
  destruct (SearchFacts.summary_of_some _ _ Hsum)
    as (heading & link & _ & _ & ->).
  split; [reflexivity|].
  do 4 eexists. split; [reflexivity|].
  split; [apply strip_trimmed|].
  destruct (Soup.find "a" [("data-testid", "authorName")] c);
    [apply strip_trimmed | split; reflexivity].
Qed.

Lemma summaries_are_trimmed_records_witness :
  Server._search_medium_articles Demo.env (PStr "python") PNone (PInt 10)
                                 Demo.fresh
  = (Return Demo.python_payload, with_session Demo.fresh)
  /\ exists list,
       Demo.python_payload = [mk_text "text" (Json.dumps (Json.JList list))]
       /\ Forall
            (fun s => keys s = ["title"; "url"; "author"; "snippet"]) list.
Proof.
  assert (Hrun : Server._search_medium_articles Demo.env (PStr "python")
                   PNone (PInt 10) Demo.fresh
                 = (Return Demo.python_payload, with_session Demo.fresh))
    by (vm_compute; reflexivity).
  split; [exact Hrun|].
  destruct (summaries_are_trimmed_records _ _ _ _ _ _ _ Hrun)
    as (list & Hpayload & Hall).
  exists list. split; [exact Hpayload|].
  eapply Forall_impl; [|exact Hall]. intros s [Hkeys _]. exact Hkeys.
Defined.

End SearchMore.

(** ** More on conversion and metadata *)

Module PageMore.
Import Notions Shape.

(** X19.  The conversion and the info call agree on the title of a page
    that has an [h1]: the heading line of the converted document carries
    the very string the info record has under [title]. *)
Theorem convert_and_info_agree_on_title
        (env : Env) (url include_images include_code : pyval) (st : state)
        (response : httpx_response) (article heading : Soup.PageElement) :
  httpx_get env 30 url = Return response ->
  raise_for_status env response = None ->
  Soup.find "article" [] (BeautifulSoup env (text response))
  = Some article ->
  Soup.find "h1" [] (BeautifulSoup env (text response)) = Some heading ->
  exists title rendered info,
    Server._convert_medium_to_markdown env url include_images include_code st
    = (Return [mk_text "text" (convert_header title url ++ rendered)], st)
    /\ Server._get_medium_article_info env url st
       = (Return [mk_text "text" (Json.dumps (Json.JDict info))], st)
    /\ Json.field info "title" = Some (Json.JStr title)
    /\ trimmed title.
Proof.
  intros Hget Hstatus Harticle Hh1.
  exists (PyStr.strip (Soup.get_text heading)),
         (md_convert env Server.md (tag_str env article)),
         (Server.article_info env url (text response)).
  split; [|split; [|split]].
  - rewrite ServerFacts.convert_run. cbv zeta.
    rewrite Hget, Hstatus, Harticle, Hh1.
    now rewrite ConvertProps.convert_header_app.
  - rewrite ServerFacts.info_run. cbv zeta. now rewrite Hget, Hstatus.
  - unfold Server.article_info.
    cbn [Json.field String.eqb Ascii.eqb Bool.eqb]. now rewrite Hh1.
  - apply SearchMore.strip_trimmed.
Qed.

Lemma convert_and_info_agree_on_title_witness :
  let url := PStr "https://medium.com/p/async" in
  exists title rendered info,
    Server._convert_medium_to_markdown Demo.env url PNone PNone Demo.fresh
    = (Return [mk_text "text" (convert_header title url ++ rendered)],
       Demo.fresh)
    /\ Server._get_medium_article_info Demo.env url Demo.fresh
       = (Return [mk_text "text" (Json.dumps (Json.JDict info))], Demo.fresh)
    /\ Json.field info "title" = Some (Json.JStr title)
    /\ trimmed title.
Proof.
  intros url.
  destruct (Soup.find "article" []
              (BeautifulSoup Demo.env (Demo.markup Demo.async_page)))
    as [article|] eqn:Ha; [|vm_compute in Ha; discriminate Ha].
  destruct (Soup.find "h1" []
              (BeautifulSoup Demo.env (Demo.markup Demo.async_page)))
    as [heading|] eqn:Hh; [|vm_compute in Hh; discriminate Hh].
  exact (convert_and_info_agree_on_title
           Demo.env url PNone PNone Demo.fresh
           (mk_httpx 200 (Demo.markup Demo.async_page)) article heading
           eq_refl eq_refl Ha Hh).
Defined.

(** X20.  The record of an info call always has the six keys [title],
    [author], [reading_time], [publish_date], [url] and [word_count], in
    this order.  [publish_date] is the [datetime] attribute of the first
    [time] element, and [null] when that element has no such
    attribute. *)
Theorem info_record_shape (env : Env) (url : pyval) (html : string) :
  let soup := BeautifulSoup env html in
  let info := Server.article_info env url html in
  map fst info
  = ["title"; "author"; "reading_time"; "publish_date"; "url"; "word_count"]
  /\ (forall t d,
        Soup.find "time" [] soup = Some t ->
        Soup.get_opt t "datetime" = Some d ->
        Json.field info "publish_date" = Some (Json.JStr d))
  /\ (forall t,
        Soup.find "time" [] soup = Some t ->
        Soup.get_opt t "datetime" = None ->
        Json.field info "publish_date" = Some Json.JNull)
  /\ (exists title author reading_time,
        Json.field info "title" = Some (Json.JStr title)
        /\ Json.field info "author" = Some (Json.JStr author)
        /\ Json.field info "reading_time" = Some (Json.JStr reading_time)
        /\ trimmed title /\ trimmed author /\ trimmed reading_time).
Proof.
  cbv zeta. unfold Server.article_info.
  cbn [map fst Json.field String.eqb Ascii.eqb Bool.eqb].
  split; [reflexivity|]. split; [|split].
  - intros t d Ht Hd. now rewrite Ht, Hd.
  - intros t Ht Hd. now rewrite Ht, Hd.
  - assert (H : forall node : option Soup.PageElement,
               exists x,
                 match node with
                 | Some t => Json.JStr (PyStr.strip (Soup.get_text t))
                 | None => Json.JStr "Unknown"
                 end = Json.JStr x /\ trimmed x).
    { intros [t|]; eexists; split; try reflexivity.
      - apply SearchMore.strip_trimmed.
      - split; reflexivity. }
    destruct (H (Soup.find "h1" [] (BeautifulSoup env html)))
      as (title & -> & Ht).
    destruct (H (Soup.find "a" [("data-testid", "authorName")]
                   (BeautifulSoup env html))) as (author & -> & Ha).
    destruct (H (Soup.find "span" [("data-testid", "readingTime")]
                   (BeautifulSoup env html))) as (rt & -> & Hr).
    exists title, author, rt.
    split; [reflexivity|]. split; [reflexivity|]. split; [reflexivity|].
    auto.
Qed.

(** X21.  A conversion returns only when the fetch has answered, the
    status check has passed and the page has an article container; an
    info call returns only when the fetch has answered and the status
    check has passed.  Neither handler returns a payload otherwise. *)
Theorem convert_and_info_return_requires
        (env : Env) (url include_images include_code : pyval)
        (st st' : state) (payload : list TextContent) :
  (Server._convert_medium_to_markdown env url include_images include_code st
   = (Return payload, st') ->
   exists response article,
     httpx_get env 30 url = Return response
     /\ raise_for_status env response = None
     /\ Soup.find "article" [] (BeautifulSoup env (text response))
        = Some article)
  /\ (Server._get_medium_article_info env url st = (Return payload, st') ->
      exists response,
        httpx_get env 30 url = Return response
        /\ raise_for_status env response = None).
Proof.
  rewrite ServerFacts.convert_run, ServerFacts.info_run. cbv zeta.
  split; intros H.
  - destruct (httpx_get env 30 url) as [response|e]; [|discriminate].
    destruct (raise_for_status env response) as [e|] eqn:Hs; [discriminate|].
    destruct (Soup.find "article" [] _) as [a|] eqn:Ha; [|discriminate].
    exists response, a. repeat split; assumption || reflexivity.
  - destruct (httpx_get env 30 url) as [response|e]; [|discriminate].
    destruct (raise_for_status env response) as [e|] eqn:Hs; [discriminate|].
    exists response. repeat split; assumption || reflexivity.
Qed.

Lemma convert_and_info_return_requires_witness :
  let url := PStr "https://medium.com/p/example" in
  exists payload response article,
    Server._convert_medium_to_markdown Demo.env url PNone PNone Demo.fresh
    = (Return payload, Demo.fresh)
    /\ httpx_get Demo.env 30 url = Return response
    /\ raise_for_status Demo.env response = None
    /\ Soup.find "article" [] (BeautifulSoup Demo.env (text response))
       = Some article.
Proof.
  intros url.
  destruct (Server._convert_medium_to_markdown Demo.env url PNone PNone
                                               Demo.fresh)
    as [[payload|e] st'] eqn:Hrun; [|vm_compute in Hrun; discriminate Hrun].
  assert (Hst : st' = Demo.fresh)
    by (vm_compute in Hrun; now injection Hrun as _ <-).
  subst st'.
  destruct (proj1 (convert_and_info_return_requires
                     Demo.env url PNone PNone Demo.fresh Demo.fresh payload)
              Hrun) as (response & article & H).
  exists payload, response, article. split; [reflexivity | exact H].
Defined.

(** X22.  A failure of the fetch or of the status check of a conversion
    or an info call, with an exception whose class derives from
    [Exception], reaches the caller as the text [Error: ] with the
    message of the exception; the handler and the dispatch each add one
    log record.  With an exception whose class does not derive from
    [Exception] the call raises it and logs nothing. *)
Theorem fetch_failure_is_reported
        (env : Env) (url : pyval) (e : exn) (st : state) :
  (httpx_get env 30 url = Raise e
   \/ exists response,
        httpx_get env 30 url = Return response
        /\ raise_for_status env response = Some e) ->
  (is_Exception e = true ->
   Dispatch.call_tool env "convert_medium_to_markdown"
                      (Some [("url", url)]) st
   = (Return (error_payload (exn_msg e)),
      logged ERROR
             ("Error in tool call convert_medium_to_markdown: " ++ exn_msg e)
             (logged ERROR ("Error converting Medium article: " ++ exn_msg e)
                     st))
   /\ Dispatch.call_tool env "get_medium_article_info"
                         (Some [("url", url)]) st
      = (Return (error_payload (exn_msg e)),
         logged ERROR
                ("Error in tool call get_medium_article_info: " ++ exn_msg e)
                (logged ERROR ("Error getting article info: " ++ exn_msg e)
                        st)))
  /\ (is_Exception e = false ->
      Dispatch.call_tool env "convert_medium_to_markdown"
                         (Some [("url", url)]) st
      = (Raise e, st)
      /\ Dispatch.call_tool env "get_medium_article_info"
                            (Some [("url", url)]) st
         = (Raise e, st)).
Proof.
  intros Hfail.
  rewrite !BindingFacts.call_tool_run.
  unfold Dispatch.or_empty, Dispatch.dispatch.
  cbn [String.eqb Ascii.eqb Bool.eqb].
  unfold Dispatch.call_convert, Dispatch.call_info, Dispatch.check_keywords,
         Dispatch.required, Dispatch.optional.
  cbn [Dispatch.unexpected Dispatch.kw_get existsb String.eqb Ascii.eqb
       Bool.eqb orb].
  unfold bind, lift.
  rewrite ServerFacts.convert_run, ServerFacts.info_run. cbv zeta.
  destruct Hfail as [->|(response & -> & ->)]; split; intros ->;
    split; reflexivity.
Qed.

Lemma fetch_failure_is_reported_witness :
  let e := mk_exn "HTTPStatusError" "Error response 404" true in
  (exists response,
     httpx_get Demo.env 30 (PStr "https://medium.com/p/gone")
     = Return response
     /\ raise_for_status Demo.env response = Some e)
  /\ is_Exception e = true
  /\ fst (Dispatch.call_tool Demo.env "get_medium_article_info"
            (Some [("url", PStr "https://medium.com/p/gone")]) Demo.fresh)
     = Return (error_payload "Error response 404")
  /\ is_Exception Sample.cancelled = false
  /\ Dispatch.call_tool Sample.cancelled_env "get_medium_article_info"
       (Some [("url", PStr "https://medium.com/p/gone")]) Demo.fresh
     = (Raise Sample.cancelled, Demo.fresh).
Proof.
  intros e.
  assert (H : exists response,
             httpx_get Demo.env 30 (PStr "https://medium.com/p/gone")
             = Return response
             /\ raise_for_status Demo.env response = Some e).
  { exists (mk_httpx 404 "Not Found"). split; reflexivity. }
  split; [exact H|]. split; [reflexivity|]. split; [|split; [reflexivity|]].
  - exact (f_equal fst
             (proj2 (proj1 (fetch_failure_is_reported
                              Demo.env (PStr "https://medium.com/p/gone")
                              e Demo.fresh (or_intror H)) eq_refl))).
  - exact (proj2 (proj2 (fetch_failure_is_reported
                           Sample.cancelled_env
                           (PStr "https://medium.com/p/gone")
                           Sample.cancelled Demo.fresh (or_introl eq_refl))
                    eq_refl)).
Defined.

End PageMore.

(** ** The word count *)

Module WordCount.
Import Notions Shape.

Lemma tokens_inside (b : string) :
  tokens_from false b
  = tokens_from true b + (if starts_in_word b then 1 else 0).
Proof.
  destruct b as [|c r]; cbn [tokens_from starts_in_word]; [reflexivity|].
  destruct (PyStr.isspace c); cbn [negb]; lia.
Qed.

(** Counting the tokens of a concatenation, started inside or outside a
    run. *)
Lemma tokens_from_app (a b : string) (inside : bool) :
  tokens_from inside (a ++ b)
  + (if (if PyStr.is_empty a then inside else ends_in_word a)
          && starts_in_word b then 1 else 0)
  = tokens_from inside a + tokens_from false b.
Proof.
  revert inside. induction a as [|c r IH]; intros inside.
  - cbn [String.append PyStr.is_empty tokens_from].
    destruct inside; [rewrite (tokens_inside b)|];
      destruct (starts_in_word b); cbn [andb]; lia.
  - cbn [String.append PyStr.is_empty tokens_from ends_in_word].
    destruct (PyStr.isspace c) eqn:E.
    + specialize (IH false). destruct r; cbn [PyStr.is_empty negb] in *;
        exact IH.
    + specialize (IH true). destruct r; cbn [PyStr.is_empty negb] in *; lia.
Qed.

Lemma join_empty_app (l1 l2 : list string) :
  PyStr.join_empty (l1 ++ l2)
  = PyStr.join_empty l1 ++ PyStr.join_empty l2.
Proof.
  unfold PyStr.join_empty.
  induction l1 as [|x l IH]; cbn [List.app fold_right]; [reflexivity|].
  now rewrite IH, PyStrFacts.app_assoc.
Qed.

(** The text of a tag is the text of its first children followed by the
    text of the others, with nothing in between. *)
Lemma get_text_app (name : string) (attrs : list (string * string))
      (cs1 cs2 : list Soup.PageElement) :
  Soup.get_text (Soup.Tag name attrs (cs1 ++ cs2))
  = Soup.get_text (Soup.Tag name attrs cs1)
    ++ Soup.get_text (Soup.Tag name attrs cs2).
Proof.
  unfold Soup.get_text. cbn [Soup.descendants].
  now rewrite flat_map_app, map_app, join_empty_app.
Qed.

(** X23.  The texts of neighbouring parts of a page are joined without a
    separator before the words are counted: the word count of the page is
    the sum of the word counts of the two parts, less one when the first
    part ends in a word and the second starts in one, since these two
    then count as one word. *)
Theorem adjacent_parts_share_a_word
        (env : Env) (html name : string) (attrs : list (string * string))
        (cs1 cs2 : list Soup.PageElement) :
  BeautifulSoup env html = Soup.Tag name attrs (cs1 ++ cs2) ->
  let a := Soup.get_text (Soup.Tag name attrs cs1) in
  let b := Soup.get_text (Soup.Tag name attrs cs2) in
  (Server._estimate_word_count env html
   + (if ends_in_word a && starts_in_word b then 1 else 0)
   = Z.of_nat (length (PyStr.split a)) + Z.of_nat (length (PyStr.split b)))%Z.
Proof.
  intros Hparse a b.
  unfold Server._estimate_word_count. rewrite Hparse, get_text_app.
  fold a b. rewrite !PyStrFacts.split_count. unfold whitespace_tokens.
  pose proof (tokens_from_app a b false) as H.
  destruct a as [|c r].
  - cbn [PyStr.is_empty ends_in_word andb] in *. lia.
  - cbn [PyStr.is_empty] in H.
    destruct (ends_in_word (String c r) && starts_in_word b); lia.
Qed.

Lemma adjacent_parts_share_a_word_witness :
  let html := "<p>one two</p><p>three</p>" in
  BeautifulSoup Sample.env html = Sample.two_paragraphs
  /\ Server._estimate_word_count Sample.env html = 2%Z.
Proof.
  intros html. split; [reflexivity|].
  pose proof (adjacent_parts_share_a_word
                Sample.env html "[document]" []
                [Soup.Tag "p" [] [Demo.txt "one two"]]
                [Soup.Tag "p" [] [Demo.txt "three"]] eq_refl) as H.
  cbv zeta in H.
  change (Server._estimate_word_count Sample.env html + 1 = 2 + 1)%Z in H.
  lia.
Defined.

Lemma tokens_zero (s : string) :
  tokens_from false s = 0 <-> all_space s = true.
Proof.
  induction s as [|c r IH]; cbn [tokens_from all_space]; [tauto|].
  destruct (PyStr.isspace c); cbn [andb]; [exact IH|].
  split; [lia | discriminate].
Qed.

(** X24.  The word count of a page is 0 exactly when its flattened text
    holds nothing but whitespace. *)
Theorem word_count_zero_iff_blank (env : Env) (html : string) :
  Server._estimate_word_count env html = 0%Z
  <-> all_space (Soup.get_text (BeautifulSoup env html)) = true.
Proof.
  rewrite InfoProps.estimate_is_token_count. unfold whitespace_tokens.
  rewrite <- tokens_zero. lia.
Qed.

End WordCount.

(** ** More on the command line *)

Module CliMore.

(** X25.  The branch is decided by the port alone.  The [--stdio] flag
    changes nothing; without a port [main] prints no message and builds
    and runs the stdio server, and it ends as that run ends, by returning
    or with the exception the run raises; [--verbose] only puts the
    logging setup in front; and [main] never both prints the
    not-implemented message and runs the server. *)
Theorem mode_is_decided_by_port
        (run : outcome unit) (stdio stdio' verbose : bool)
        (port : option Z) :
  Cli.main run (Cli.mk_args stdio port verbose)
  = Cli.main run (Cli.mk_args stdio' port verbose)
  /\ Cli.main run (Cli.mk_args stdio None verbose)
     = ((if verbose then [Cli.LoggingDebug] else []) ++ [Cli.RunStdioServer],
        match run with
        | Return _ => Cli.Returned
        | Raise e => Cli.Uncaught e
        end)%list
  /\ Cli.main run (Cli.mk_args stdio port true)
     = (Cli.LoggingDebug
          :: fst (Cli.main run (Cli.mk_args stdio port false)),
        snd (Cli.main run (Cli.mk_args stdio port false)))
  /\ ~ (In (Cli.PrintStderr "HTTP mode not yet implemented")
           (fst (Cli.main run (Cli.mk_args stdio port verbose)))
        /\ In Cli.RunStdioServer
              (fst (Cli.main run (Cli.mk_args stdio port verbose)))).
Proof.
  split; [reflexivity|]. split; [reflexivity|]. split.
  - unfold Cli.main. cbn [Cli.verbose Cli.port].
    destruct (Cli.port_truthy port); reflexivity.
  - unfold Cli.main. cbn [Cli.verbose Cli.port].
    destruct (Cli.port_truthy port), verbose; cbn [List.app fst In];
      intros [H1 H2];
      repeat (destruct H1 as [H1|H1]; try discriminate H1);
      repeat (destruct H2 as [H2|H2]; try discriminate H2);
      assumption.
Qed.

Lemma main_port_nonzero_witness :
  Cli.port (Cli.mk_args true (Some 8080%Z) true) = Some 8080%Z
  /\ Cli.main (Return tt) (Cli.mk_args true (Some 8080%Z) true)
     = ([Cli.LoggingDebug; Cli.PrintStderr "HTTP mode not yet implemented"],
        Cli.SysExit 1)
  /\ snd (Cli.main (Return tt) (Cli.mk_args true (Some 8080%Z) true))
     = Cli.SysExit 1.
Proof.
  split; [reflexivity|]. split; [reflexivity|].
  apply (CliProps.main_port_nonzero
           (Return tt) (Cli.mk_args true (Some 8080%Z) true) 8080 eq_refl).
  discriminate.
Defined.

End CliMore.
